(** * Email and messaging client wrappers: a shallow embedding

    The two Python modules [backend/email_agent_example.py] and
    [backend/messaging_agent_example.py] are thin wrappers over SMTP/IMAP
    and over a messaging provider SDK.  Every method is embedded as a
    computation in a small state-and-exception monad:

    - the state holds the wrapper object ([self]), the local variables of
      the running method, the list of network calls issued so far and the
      lines printed on the console;
    - a computation ends with [Ret v] (the method returned [v]) or with
      [Raise e] (an exception escaped);
    - the outside world (SMTP server, IMAP server, provider account) is a
      record of outcomes, one per library call, consulted by [net].

    [await asyncio.to_thread(f, args)] is embedded as the call [f args]:
    the awaiting method receives the value or the exception of [f].

    A Python [str] is a [string] read one character per [ascii], with code
    points 0 to 255; [bytes] are a [string] read one byte per [ascii].
    The builtin [int] is a parameter of the methods that call it. *)

From Stdlib Require Import ZArith Ascii String List Lia.
From stdpp Require Import base gmap strings list.

Local Open Scope string_scope.
Local Open Scope list_scope.

(** ** Python values *)

(** Instances of [Exception]: the class name and the text [str(e)]. *)
Inductive exn : Type :=
| Exception (cls : string) (msg : string).

Definition str_exn (e : exn) : string :=
  match e with Exception _ msg => msg end.

Inductive pyresult (A : Type) : Type :=
| Ret (a : A)
| Raise (e : exn).
Arguments Ret {A} a.
Arguments Raise {A} e.

(** Truth value of an [Optional[str]]: [None] and the empty string are false. *)
Definition truthy (v : option string) : bool :=
  match v with
  | Some s => negb (String.eqb s "")
  | None => false
  end.

(** [xs[start:]] for a Python list. *)
Definition py_slice_from {A : Type} (start : Z) (xs : list A) : list A :=
  let n := Z.of_nat (length xs) in
  let lo := if (start <? 0)%Z then Z.max 0 (start + n) else Z.min start n in
  drop (Z.to_nat lo) xs.

Fixpoint str_take (n : nat) (s : string) : string :=
  match n, s with
  | O, _ => ""
  | S _, EmptyString => ""
  | S n', String c r => String c (str_take n' r)
  end.

(** [s[:stop]] for a Python string. *)
Definition py_slice_to (stop : Z) (s : string) : string :=
  let n := Z.of_nat (String.length s) in
  let hi := if (stop <? 0)%Z then Z.max 0 (stop + n) else Z.min stop n in
  str_take (Z.to_nat hi) s.

(** [os.getenv(key)] and [os.getenv(key, default)] over [os.environ]. *)
Definition getenv (env : gmap string string) (key : string) : option string :=
  env !! key.

Definition getenv_default (env : gmap string string) (key default : string) : string :=
  match env !! key with
  | Some v => v
  | None => default
  end.

(** *** The builtin [int] on a [str], base 10

    [py_int] is [int(s)] as CPython 3.11 computes it in its default
    configuration, on a string of characters with code points 0 to 255.
    Blanks around the literal are skipped (the ASCII blanks that
    [Py_ISSPACE] knows, and the two blanks above 127, U+0085 and U+00A0,
    which the conversion first turns into spaces); one sign may follow;
    then comes a run of digits in which single underscores separate digits.
    A run of more than 4300 digits is refused before anything after it is
    looked at.  Everything else is an invalid literal, reported with the
    first 200 characters of [repr(s)].

    The methods below do not depend on this function: they take the
    builtin as a parameter, and the properties hold for every behaviour of
    it.  [py_int] is the interpreter of the sample runs. *)

Definition is_int_space (c : ascii) : bool :=
  let n := nat_of_ascii c in
  (((9 <=? n) && (n <=? 13)) || (n =? 32) || (n =? 133) || (n =? 160))%nat.

Definition is_digit (c : ascii) : bool :=
  let n := nat_of_ascii c in ((48 <=? n) && (n <=? 57))%nat.

Definition digit_val (c : ascii) : Z := Z.of_nat (nat_of_ascii c - 48).

Fixpoint lstrip (s : string) : string :=
  match s with
  | String c r => if is_int_space c then lstrip r else s
  | EmptyString => EmptyString
  end.

(** The run of digits and underscores at the head of [s]: its value, the
    number of digits and what follows it; [None] when two underscores
    meet or when the run ends on an underscore. *)
Fixpoint scan_digits (acc : Z) (digits : nat) (after_underscore : bool) (s : string)
  : option (Z * nat * string) :=
  match s with
  | String c r =>
      if is_digit c then
        scan_digits (10 * acc + digit_val c)%Z (S digits) false r
      else if Ascii.eqb c "_" then
        (if after_underscore then None else scan_digits acc digits true r)
      else if after_underscore then None
      else Some (acc, digits, s)
  | EmptyString => if after_underscore then None else Some (acc, digits, s)
  end.

Definition hex_digit (n : nat) : ascii :=
  ascii_of_nat (if (n <? 10)%nat then 48 + n else 87 + n).

(** The escape [\xNN] of the character with code [n]. *)
Definition hex_escape (n : nat) : string :=
  String "\" (String "x" (String (hex_digit (n / 16)) (String (hex_digit (n mod 16)) ""))).

Fixpoint str_contains (c : ascii) (s : string) : bool :=
  match s with
  | String c' r => Ascii.eqb c c' || str_contains c r
  | EmptyString => false
  end.

Definition squote : ascii := ascii_of_nat 39.
Definition dquote : ascii := ascii_of_nat 34.

Definition repr_char (quote c : ascii) : string :=
  let n := nat_of_ascii c in
  if (Ascii.eqb c quote || (n =? 92)%nat) then String "\" (String c "")
  else if (n =? 9)%nat then "\t"
  else if (n =? 10)%nat then "\n"
  else if (n =? 13)%nat then "\r"
  else if ((n <? 32) || (n =? 127))%nat then hex_escape n
  else if (n <? 127)%nat then String c ""
  else if ((n <=? 160) || (n =? 173))%nat then hex_escape n
  else String c "".

Fixpoint repr_body (quote : ascii) (s : string) : string :=
  match s with
  | String c r => repr_char quote c +:+ repr_body quote r
  | EmptyString => EmptyString
  end.

(** [repr(s)]: double quotes when [s] holds an apostrophe and no double
    quote, apostrophes otherwise; control characters and the characters
    that are not printable are escaped. *)
Definition py_repr (s : string) : string :=
  let quote := if str_contains squote s && negb (str_contains dquote s)
               then dquote else squote in
  String quote (repr_body quote s +:+ String quote "").

(** A number in decimal digits. *)
Fixpoint decimal_from (fuel : nat) (n : N) (acc : string) : string :=
  match fuel with
  | O => acc
  | S fuel' =>
      let acc' := String (ascii_of_N (48 + n mod 10)) acc in
      if (n / 10 =? 0)%N then acc' else decimal_from fuel' (n / 10) acc'
  end.

Definition decimal (n : nat) : string := decimal_from (S n) (N.of_nat n) "".

Definition int_value_error (s : string) : exn :=
  Exception "ValueError"
    ("invalid literal for int() with base 10: " +:+ str_take 200 (py_repr s)).

Definition int_limit_error (digits : nat) : exn :=
  Exception "ValueError"
    ("Exceeds the limit (4300 digits) for integer string conversion: value has "
       +:+ decimal digits
       +:+ " digits; use sys.set_int_max_str_digits() to increase the limit").

Definition py_int (s : string) : pyresult Z :=
  let body := lstrip s in
  let '(negative, unsigned) :=
    match body with
    | String "+" r => (false, r)
    | String "-" r => (true, r)
    | _ => (false, body)
    end in
  match unsigned with
  | String "_" _ => Raise (int_value_error s)
  | _ =>
      match scan_digits 0 0 false unsigned with
      | None => Raise (int_value_error s)
      | Some (value, digits, rest) =>
          if (4300 <? digits)%nat then Raise (int_limit_error digits)
          else if (digits =? 0)%nat then Raise (int_value_error s)
          else
            match lstrip rest with
            | EmptyString => Ret (if negative then (- value)%Z else value)
            | String _ _ => Raise (int_value_error s)
            end
      end
  end.

(** *** [bytes.split()] with no separator: maximal runs of non-blank bytes *)

Definition is_bytes_space (c : ascii) : bool :=
  let n := nat_of_ascii c in
  (((9 <=? n) && (n <=? 13)) || (n =? 32))%nat.

Fixpoint bytes_split_from (cur : string) (s : string) : list string :=
  match s with
  | EmptyString => if String.eqb cur "" then [] else [cur]
  | String c r =>
      if is_bytes_space c then
        (if String.eqb cur "" then bytes_split_from "" r
         else cur :: bytes_split_from "" r)
      else bytes_split_from (cur +:+ String c "") r
  end.

Definition bytes_split (s : string) : list string := bytes_split_from "" s.

(** ** Messages on the wire *)

(** The [MIMEMultipart] object built by [send_email]: three headers and the
    attached [MIMEText] parts, each a subtype ([plain] or [html]) and a text. *)
Record MIMEMultipart : Type := {
  mime_from : option string;
  mime_to : string;
  mime_subject : string;
  mime_parts : list (string * string)
}.

(** What [msg["Subject"]] and [decode_header] give for a parsed message. *)
Inductive SubjectHeader : Type :=
| NoSubject (raised : exn)                (* the header is missing: [decode_header(None)] raises *)
| StrSubject (s : string)                 (* the first chunk is a [str] *)
| BytesSubject (decoded : pyresult string). (* the first chunk is [bytes]; outcome of [.decode()] *)

Record Headers : Type := {
  h_subject : SubjectHeader;
  h_from : option string;   (* [msg.get("From")] *)
  h_date : option string    (* [msg.get("Date")] *)
}.

(** A parsed [email.message.Message].  A leaf carries the outcome of
    [get_payload(decode=True).decode()]; a multipart message carries its
    sub-messages. *)
#[warnings="-register-all"]
Inductive Message : Type :=
| Leaf (h : Headers) (content_type : string) (text : pyresult string)
| Multi (h : Headers) (content_type : string) (parts : list Message).

(** One element of the [msg_data] list returned by [IMAP4.fetch]. *)
Inductive ResponsePart : Type :=
| PartTuple (msg : Message)   (* a tuple; [msg] is [message_from_bytes(part[1])] *)
| PartOther.                  (* plain [bytes] or [None] *)

(** The provider's [MessageInstance]. *)
Record MessageInstance : Type := {
  mi_sid : option string;
  mi_from_ : option string;
  mi_to : option string;
  mi_body : option string;
  mi_date_sent : option string;  (* [Some d]: a datetime whose [str] is [d] *)
  mi_status : option string
}.

(** ** Network calls *)

Inductive NetCall : Type :=
| SmtpConnect (host : string) (port : Z)
| SmtpStarttls
| SmtpLogin (user password : option string)
| SmtpSendMessage (msg : MIMEMultipart)
| SmtpQuit
| ImapConnect (host : string) (port : Z)
| ImapLogin (user password : option string)
| ImapSelect (mailbox : string)
| ImapSearch (criterion : string)
| ImapFetch (email_id : string) (parts : string)
| ImapClose
| ImapLogout
| MessagesCreate (body : string) (from_ : option string) (to : string)
| MessagesList (limit : Z).

(** ** The monad *)

Record St (Self L : Type) : Type := mkSt {
  self : Self;                 (* the wrapper object *)
  frame : L;                   (* local variables of the running method *)
  calls : list NetCall;        (* network calls issued, oldest first *)
  stdout : list string         (* lines printed, oldest first *)
}.
Arguments mkSt {Self L} _ _ _ _.
Arguments self {Self L} _.
Arguments frame {Self L} _.
Arguments calls {Self L} _.
Arguments stdout {Self L} _.

Definition M (Self L A : Type) : Type := St Self L -> pyresult A * St Self L.

Section Monad.
Context {Self L : Type}.

Definition ret {A} (a : A) : M Self L A := fun s => (Ret a, s).

Definition bind {A B} (m : M Self L A) (k : A -> M Self L B) : M Self L B :=
  fun s =>
    match m s with
    | (Ret a, s') => k a s'
    | (Raise e, s') => (Raise e, s')
    end.

Definition lift {A} (r : pyresult A) : M Self L A := fun s => (r, s).

Definition get_self : M Self L Self := fun s => (Ret (self s), s).

Definition get_local : M Self L L := fun s => (Ret (frame s), s).

Definition modify_local (f : L -> L) : M Self L unit :=
  fun s => (Ret tt, mkSt (self s) (f (frame s)) (calls s) (stdout s)).

Definition print (line : string) : M Self L unit :=
  fun s => (Ret tt, mkSt (self s) (frame s) (calls s) (stdout s ++ [line])).

(** A library call that goes to the network: it is recorded, and its
    outcome is the one the world gives. *)
Definition net {A} (c : NetCall) (outcome : pyresult A) : M Self L A :=
  fun s => (outcome, mkSt (self s) (frame s) (calls s ++ [c]) (stdout s)).

(** [try: body except Exception as e: handler e] *)
Definition try_except {A} (body : M Self L A) (handler : exn -> M Self L A) : M Self L A :=
  fun s =>
    match body s with
    | (Ret a, s') => (Ret a, s')
    | (Raise e, s') => handler e s'
    end.

(** The body of a [with] statement followed by [__exit__], which runs
    whether or not the body raised; an exception of [__exit__] wins. *)
Definition with_exit {A} (body : M Self L A) (exit : M Self L unit) : M Self L A :=
  fun s =>
    match body s with
    | (r, s') =>
        match exit s' with
        | (Ret _, s'') => (r, s'')
        | (Raise e, s'') => (Raise e, s'')
        end
    end.
End Monad.

(** A method body with its own local variables, initially [init]; the
    caller's locals are untouched. *)
Definition call {Self L L' A} (init : L') (body : M Self L' A) : M Self L A :=
  fun s =>
    match body (mkSt (self s) init (calls s) (stdout s)) with
    | (r, s') => (r, mkSt (self s') (frame s) (calls s') (stdout s'))
    end.

Notation "'let*' x ':=' m 'in' k" := (bind m (fun x => k))
  (at level 10, x name, m at level 100, k at level 200).
Notation "m ';;' k" := (bind m (fun _ => k))
  (at level 100, k at level 200, right associativity).

Fixpoint for_each {Self L A} (xs : list A) (body : A -> M Self L unit) : M Self L unit :=
  match xs with
  | [] => ret tt
  | x :: rest => body x ;; for_each rest body
  end.

(** Start of a method call on [obj]: nothing called, nothing printed yet. *)
Definition fresh {Self} (obj : Self) : St Self unit := mkSt obj tt [] [].

(** ** [backend/email_agent_example.py] *)

(** Outcomes of the [smtplib] and [imaplib] calls. *)
Record MailWorld : Type := {
  smtp_connect : string -> Z -> pyresult unit;          (* [smtplib.SMTP(host, port)] *)
  smtp_starttls : pyresult unit;
  smtp_login : option string -> option string -> pyresult unit;
  smtp_send_message : MIMEMultipart -> pyresult unit;
  smtp_quit : pyresult unit;                            (* [SMTP.__exit__] *)
  imap_connect : string -> Z -> pyresult unit;          (* [imaplib.IMAP4_SSL(host, port)] *)
  imap_login : option string -> option string -> pyresult unit;
  imap_select : string -> pyresult unit;
  imap_search : string -> pyresult (list (option string));  (* the [messages] list *)
  imap_fetch : string -> string -> pyresult (list ResponsePart);  (* the [msg_data] list *)
  imap_close : pyresult unit;
  imap_logout : pyresult unit
}.

Module EmailAgent.

Record obj : Type := {
  smtp_server : string;
  smtp_port : Z;
  email_address : option string;
  email_password : option string
}.

(** The dict appended to [emails], keys [from], [subject], [body], [date]. *)
Record EmailSummary : Type := {
  sum_from : option string;
  sum_subject : string;
  sum_body : string;
  sum_date : option string
}.

(** The guard [not self.email_address or not self.email_password]. *)
Definition credentials_missing (this : obj) : bool :=
  negb (truthy (email_address this)) || negb (truthy (email_password this)).

Section Interpreter.
(** The builtin [int] on a [str], as the running interpreter computes it. *)
Variable int : string -> pyresult Z.

Definition __init__ (env : gmap string string) : M unit unit obj :=
  let smtp_server := getenv_default env "SMTP_SERVER" "smtp.gmail.com" in
  let* smtp_port := lift (int (getenv_default env "SMTP_PORT" "587")) in
  let email_address := getenv env "EMAIL_ADDRESS" in
  let email_password := getenv env "EMAIL_PASSWORD" in
  let this := {| smtp_server := smtp_server; smtp_port := smtp_port;
                 email_address := email_address; email_password := email_password |} in
  (if credentials_missing this
   then print "[EMAIL] Warning: Email credentials not set in .env file"
   else ret tt) ;;
  ret this.

(** *** Reading one parsed message *)

Definition headers (m : Message) : Headers :=
  match m with Leaf h _ _ => h | Multi h _ _ => h end.

Definition is_multipart (m : Message) : bool :=
  match m with Leaf _ _ _ => false | Multi _ _ _ => true end.

Definition get_content_type (m : Message) : string :=
  match m with Leaf _ ct _ => ct | Multi _ ct _ => ct end.

(** [Message.walk()]: the message itself, then its parts, depth first. *)
Fixpoint walk (m : Message) : list Message :=
  match m with
  | Leaf _ _ _ => [m]
  | Multi _ _ parts => m :: flat_map walk parts
  end.

(** [part.get_payload(decode=True).decode()]; on a multipart message
    [get_payload(decode=True)] is [None]. *)
Definition payload_text (part : Message) : pyresult string :=
  match part with
  | Leaf _ _ text => text
  | Multi _ _ _ =>
      Raise (Exception "AttributeError" "'NoneType' object has no attribute 'decode'")
  end.

(** The [for part in msg.walk()] loop, entered with [body = ""]: the
    first [text/plain] part decides and ends the loop. *)
Fixpoint first_text_plain (parts : list Message) : pyresult string :=
  match parts with
  | [] => Ret ""
  | part :: rest =>
      if String.eqb (get_content_type part) "text/plain" then payload_text part
      else first_text_plain rest
  end.

Definition get_body (msg : Message) : pyresult string :=
  if is_multipart msg then first_text_plain (walk msg) else payload_text msg.

(** [decode_header(msg["Subject"])[0][0]], decoded when it is [bytes]. *)
Definition get_subject (msg : Message) : pyresult string :=
  match h_subject (headers msg) with
  | NoSubject raised => Raise raised
  | StrSubject s => Ret s
  | BytesSubject decoded => decoded
  end.

(** [messages[0]] on the data list returned by [mail.search]. *)
Definition messages_0 (messages : list (option string)) : pyresult (option string) :=
  match messages with
  | [] => Raise (Exception "IndexError" "list index out of range")
  | x :: _ => Ret x
  end.

(** [messages[0].split()]: the identifiers, or a failure when the item is [None]. *)
Definition split (data : option string) : pyresult (list string) :=
  match data with
  | None => Raise (Exception "AttributeError" "'NoneType' object has no attribute 'split'")
  | Some b => Ret (bytes_split b)
  end.

Section Operations.
Variable W : MailWorld.

Definition _send_sync (msg : MIMEMultipart) (to : string) : M obj unit unit :=
  let* this := get_self in
  net (SmtpConnect (smtp_server this) (smtp_port this))
      (smtp_connect W (smtp_server this) (smtp_port this)) ;;
  with_exit
    (net SmtpStarttls (smtp_starttls W) ;;
     net (SmtpLogin (email_address this) (email_password this))
         (smtp_login W (email_address this) (email_password this)) ;;
     net (SmtpSendMessage msg) (smtp_send_message W msg))
    (net SmtpQuit (smtp_quit W)).

Definition send_email (to subject body : string) (is_html : bool) : M obj unit bool :=
  let* this := get_self in
  if credentials_missing this then
    print "[EMAIL] Error: Email credentials not configured" ;;
    ret false
  else
    try_except
      (let msg := {| mime_from := email_address this;
                     mime_to := to;
                     mime_subject := subject;
                     mime_parts := if is_html then [("html", body)]
                                   else [("plain", body)] |} in
       _send_sync msg to ;;
       print ("[EMAIL] Successfully sent email to " +:+ to) ;;
       ret true)
      (fun e =>
         print ("[EMAIL] Error sending email: " +:+ str_exn e) ;;
         ret false).

(** The body of [for response_part in msg_data]. *)
Definition response_part_body (response_part : ResponsePart)
  : M obj (list EmailSummary) unit :=
  match response_part with
  | PartTuple msg =>
      let* subject := lift (get_subject msg) in
      let from_addr := h_from (headers msg) in
      let* body := lift (get_body msg) in
      modify_local (fun emails =>
        (emails ++ [ {| sum_from := from_addr;
                        sum_subject := subject;
                        sum_body := py_slice_to 500 body;
                        sum_date := h_date (headers msg) |} ])%list)
  | PartOther => ret tt
  end.

(** The body of [for email_id in email_ids[-limit:]]. *)
Definition email_id_body (email_id : string) : M obj (list EmailSummary) unit :=
  let* msg_data := net (ImapFetch email_id "(RFC822)")
                       (imap_fetch W email_id "(RFC822)") in
  for_each msg_data response_part_body.

Definition _read_emails_sync (imap_server : string) (imap_port : Z) (limit : Z)
  : M obj unit (list EmailSummary) :=
  call []
    (try_except
       (let* this := get_self in
        net (ImapConnect imap_server imap_port) (imap_connect W imap_server imap_port) ;;
        net (ImapLogin (email_address this) (email_password this))
            (imap_login W (email_address this) (email_password this)) ;;
        net (ImapSelect "inbox") (imap_select W "inbox") ;;
        let* messages := net (ImapSearch "ALL") (imap_search W "ALL") in
        let* data := lift (messages_0 messages) in
        let* email_ids := lift (split data) in
        for_each (py_slice_from (- limit) email_ids) email_id_body ;;
        net ImapClose (imap_close W) ;;
        net ImapLogout (imap_logout W))
       (fun e => print ("[EMAIL] IMAP error: " +:+ str_exn e)) ;;
     get_local).

Definition read_emails (env : gmap string string) (limit : Z)
  : M obj unit (list EmailSummary) :=
  try_except
    (let imap_server := getenv_default env "IMAP_SERVER" "imap.gmail.com" in
     let* imap_port := lift (int (getenv_default env "IMAP_PORT" "993")) in
     let* this := get_self in
     if credentials_missing this then
       print "[EMAIL] Error: Email credentials not configured" ;;
       ret []
     else
       let* emails := _read_emails_sync imap_server imap_port limit in
       ret emails)
    (fun e =>
       print ("[EMAIL] Error reading emails: " +:+ str_exn e) ;;
       ret []).
End Operations.
End Interpreter.

End EmailAgent.

(** ** [backend/messaging_agent_example.py] *)

(** The handle built by [TwilioClient(account_sid, auth_token)]. *)
Record TwilioClient : Type := {
  account_sid : string;
  auth_token : string
}.

(** Outcomes of the provider calls [client.messages.create(body=, from_=, to=)]
    and [client.messages.list(limit=)]. *)
Record Provider : Type := {
  messages_create : string -> option string -> string -> pyresult (option MessageInstance);
  messages_list : Z -> pyresult (list MessageInstance)
}.

Module MessagingAgent.

(** An attribute that [__init__] may leave unassigned. *)
Inductive attr (A : Type) : Type :=
| Unset
| Assigned (v : A).
Arguments Unset {A}.
Arguments Assigned {A} v.

Record obj : Type := {
  client : option TwilioClient;
  from_number : attr (option string)
}.

(** The dict appended to [messages]. *)
Record MessageSummary : Type := {
  sum_from : option string;
  sum_to : option string;
  sum_body : option string;
  sum_date : string;
  sum_status : option string
}.

Definition __init__ (TWILIO_AVAILABLE : bool) (env : gmap string string)
  : M unit unit obj :=
  if negb TWILIO_AVAILABLE then
    print "[MESSAGING] Twilio not available" ;;
    ret {| client := None; from_number := Unset |}
  else
    let account_sid := getenv env "TWILIO_ACCOUNT_SID" in
    let auth_token := getenv env "TWILIO_AUTH_TOKEN" in
    let from_number := Assigned (getenv env "TWILIO_PHONE_NUMBER") in
    match account_sid, auth_token with
    | Some sid, Some token =>
        if truthy account_sid && truthy auth_token then
          print "[MESSAGING] Twilio client initialized" ;;
          ret {| client := Some {| account_sid := sid; auth_token := token |};
                 from_number := from_number |}
        else
          print "[MESSAGING] Warning: Twilio credentials not set in .env" ;;
          ret {| client := None; from_number := from_number |}
    | _, _ =>
        print "[MESSAGING] Warning: Twilio credentials not set in .env" ;;
        ret {| client := None; from_number := from_number |}
    end.

(** The guard [not self.client]: a client handle is true, [None] is false. *)
Definition no_client (this : obj) : bool :=
  match client this with
  | Some _ => false
  | None => true
  end.

(** Reading [self.from_number]. *)
Definition self_from_number {L} : M obj L (option string) :=
  let* this := get_self in
  match from_number this with
  | Assigned v => ret v
  | Unset =>
      lift (Raise (Exception "AttributeError"
                     "'MessagingAgent' object has no attribute 'from_number'"))
  end.

(** Reaching [self.client.messages]. *)
Definition self_client_messages {L} : M obj L TwilioClient :=
  let* this := get_self in
  match client this with
  | Some c => ret c
  | None =>
      lift (Raise (Exception "AttributeError"
                     "'NoneType' object has no attribute 'messages'"))
  end.

(** [msg and msg.sid] as a condition. *)
Definition has_sid (msg : option MessageInstance) : bool :=
  match msg with
  | Some m => truthy (mi_sid m)
  | None => false
  end.

(** [msg.sid] inside an f-string. *)
Definition sid_text (msg : option MessageInstance) : string :=
  match msg with
  | Some {| mi_sid := Some sid |} => sid
  | _ => "None"
  end.

(** [str(msg.date_sent)]. *)
Definition str_date (d : option string) : string :=
  match d with Some t => t | None => "None" end.

Definition message_dict (msg : MessageInstance) : MessageSummary :=
  {| sum_from := mi_from_ msg;
     sum_to := mi_to msg;
     sum_body := mi_body msg;
     sum_date := str_date (mi_date_sent msg);
     sum_status := mi_status msg |}.

Section Operations.
Variable P : Provider.

Definition _send_sms_sync (to message : string) : M obj unit (option MessageInstance) :=
  let* _ := self_client_messages in
  let* from_ := self_from_number in
  net (MessagesCreate message from_ to) (messages_create P message from_ to).

Definition send_sms (to message : string) : M obj unit bool :=
  let* this := get_self in
  if no_client this then
    print "[MESSAGING] Error: Twilio client not initialized" ;;
    ret false
  else
    let* from_number := self_from_number in
    if negb (truthy from_number) then
      print "[MESSAGING] Error: TWILIO_PHONE_NUMBER not set" ;;
      ret false
    else
      try_except
        (let* msg := _send_sms_sync to message in
         if has_sid msg then
           print ("[MESSAGING] SMS sent to " +:+ to +:+ " (SID: " +:+ sid_text msg +:+ ")") ;;
           ret true
         else
           print ("[MESSAGING] Failed to send SMS to " +:+ to) ;;
           ret false)
        (fun e =>
           print ("[MESSAGING] Error sending SMS: " +:+ str_exn e) ;;
           ret false).

Definition _send_whatsapp_sync (to message : string) (from_ : option string)
  : M obj unit (option MessageInstance) :=
  let* _ := self_client_messages in
  net (MessagesCreate message from_ to) (messages_create P message from_ to).

Definition send_whatsapp (to message : string) : M obj unit bool :=
  let* this := get_self in
  if no_client this then
    print "[MESSAGING] Error: Twilio client not initialized" ;;
    ret false
  else
    let* from_number := self_from_number in
    let whatsapp_from :=
      match from_number with
      | Some n => if truthy from_number then Some ("whatsapp:" +:+ n) else None
      | None => None
      end in
    let whatsapp_to := "whatsapp:" +:+ to in
    if negb (truthy whatsapp_from) then
      print "[MESSAGING] Error: TWILIO_PHONE_NUMBER not set" ;;
      ret false
    else
      try_except
        (let* msg := _send_whatsapp_sync whatsapp_to message whatsapp_from in
         if has_sid msg then
           print ("[MESSAGING] WhatsApp sent to " +:+ to +:+ " (SID: " +:+ sid_text msg +:+ ")") ;;
           ret true
         else
           print ("[MESSAGING] Failed to send WhatsApp to " +:+ to) ;;
           ret false)
        (fun e =>
           print ("[MESSAGING] Error sending WhatsApp: " +:+ str_exn e) ;;
           ret false).

Definition _get_messages_sync (limit : Z) : M obj unit (list MessageSummary) :=
  call []
    (try_except
       (let* _ := self_client_messages in
        let* twilio_messages := net (MessagesList limit) (messages_list P limit) in
        for_each twilio_messages (fun msg =>
          modify_local (fun messages => (messages ++ [message_dict msg])%list)))
       (fun e => print ("[MESSAGING] Error retrieving messages: " +:+ str_exn e)) ;;
     get_local).

Definition get_messages (limit : Z) : M obj unit (list MessageSummary) :=
  let* this := get_self in
  if no_client this then
    print "[MESSAGING] Error: Twilio client not initialized" ;;
    ret []
  else
    try_except
      (let* messages := _get_messages_sync limit in
       ret messages)
      (fun e =>
         print ("[MESSAGING] Error getting messages: " +:+ str_exn e) ;;
         ret []).
End Operations.

End MessagingAgent.

(** ** Reference descriptions used in the statements *)

(** A computation returns: no exception escapes it from state [s]. *)
Definition returns {Self L A} (m : M Self L A) (s : St Self L) : Prop :=
  exists v, fst (m s) = Ret v.

(** No exception escapes the computation, whatever the state. *)
Definition never_raises {Self L A} (m : M Self L A) : Prop :=
  forall s, returns m s.

(** The dict that the loop body builds for one parsed message, or the
    exception that interrupts it. *)
Definition summary_of (msg : Message) : pyresult EmailAgent.EmailSummary :=
  match EmailAgent.get_subject msg with
  | Raise e => Raise e
  | Ret subject =>
      match EmailAgent.get_body msg with
      | Raise e => Raise e
      | Ret body =>
          Ret {| EmailAgent.sum_from := h_from (EmailAgent.headers msg);
                 EmailAgent.sum_subject := subject;
                 EmailAgent.sum_body := py_slice_to 500 body;
                 EmailAgent.sum_date := h_date (EmailAgent.headers msg) |}
      end
  end.

(** The summaries appended while walking [msg_data], up to the first
    exception, and that exception if there is one. *)
Fixpoint parts_summaries (parts : list ResponsePart)
  : list EmailAgent.EmailSummary * option exn :=
  match parts with
  | [] => ([], None)
  | PartOther :: rest => parts_summaries rest
  | PartTuple msg :: rest =>
      match summary_of msg with
      | Raise e => ([], Some e)
      | Ret x => let (l, r) := parts_summaries rest in (x :: l, r)
      end
  end.

(** The same over the identifiers fetched one after the other. *)
Fixpoint ids_summaries (W : MailWorld) (ids : list string)
  : list EmailAgent.EmailSummary * option exn :=
  match ids with
  | [] => ([], None)
  | email_id :: rest =>
      match imap_fetch W email_id "(RFC822)" with
      | Raise e => ([], Some e)
      | Ret parts =>
          match parts_summaries parts with
          | (l, Some e) => (l, Some e)
          | (l, None) => let (l', r) := ids_summaries W rest in ((l ++ l')%list, r)
          end
      end
  end.

(** The tuples among the elements of [msg_data]: the fetched messages. *)
Fixpoint tuple_count (parts : list ResponsePart) : nat :=
  match parts with
  | [] => 0
  | PartTuple _ :: rest => S (tuple_count rest)
  | PartOther :: rest => tuple_count rest
  end.

(** How a loop that stopped on [r] ends. *)
Definition outcome_of (r : option exn) : pyresult unit :=
  match r with
  | None => Ret tt
  | Some e => Raise e
  end.

(** The IMAP session reaches the fetch loop with the identifiers [ids]. *)
Definition session_opens (W : MailWorld) (host : string) (port : Z)
    (this : EmailAgent.obj) (ids : list string) : Prop :=
  imap_connect W host port = Ret tt /\
  imap_login W (EmailAgent.email_address this) (EmailAgent.email_password this) = Ret tt /\
  imap_select W "inbox" = Ret tt /\
  exists data rest, imap_search W "ALL" = Ret (Some data :: rest) /\ ids = bytes_split data.

(** The IMAP session breaks before the fetch loop: connection, login,
    mailbox selection or search raises, or the search data cannot be split. *)
Definition session_fails (W : MailWorld) (host : string) (port : Z)
    (this : EmailAgent.obj) : Prop :=
  (exists err, imap_connect W host port = Raise err) \/
  (exists err, imap_login W (EmailAgent.email_address this)
                 (EmailAgent.email_password this) = Raise err) \/
  (exists err, imap_select W "inbox" = Raise err) \/
  (exists err, imap_search W "ALL" = Raise err) \/
  imap_search W "ALL" = Ret [] \/
  (exists rest, imap_search W "ALL" = Ret (None :: rest)).

(** What [MessagingAgent.__init__] guarantees: when there is a client,
    [from_number] has been assigned. *)
Definition constructed (this : MessagingAgent.obj) : bool :=
  MessagingAgent.no_client this ||
  match MessagingAgent.from_number this with
  | MessagingAgent.Assigned _ => true
  | MessagingAgent.Unset => false
  end.

(** The sender number is missing: assigned, but [None] or empty. *)
Definition no_sender_number (this : MessagingAgent.obj) : bool :=
  match MessagingAgent.from_number this with
  | MessagingAgent.Assigned v => negb (truthy v)
  | MessagingAgent.Unset => false
  end.

(** ** Sample servers, accounts and messages *)

(** A part without a [Subject] header, with the [TypeError] of CPython 3.11. *)
Definition missing_subject : SubjectHeader :=
  NoSubject (Exception "TypeError"
               "expected string or bytes-like object, got 'NoneType'").

Definition mail_world
    (search : pyresult (list (option string)))
    (fetch : string -> pyresult (list ResponsePart))
    (logout : pyresult unit) : MailWorld :=
  {| smtp_connect := fun _ _ => Ret tt;
     smtp_starttls := Ret tt;
     smtp_login := fun _ _ => Ret tt;
     smtp_send_message := fun _ => Ret tt;
     smtp_quit := Ret tt;
     imap_connect := fun _ _ => Ret tt;
     imap_login := fun _ _ => Ret tt;
     imap_select := fun _ => Ret tt;
     imap_search := fun _ => search;
     imap_fetch := fun email_id _ => fetch email_id;
     imap_close := Ret tt;
     imap_logout := logout |}.

Definition plain_message (subject text : string) : Message :=
  Leaf {| h_subject := StrSubject subject;
          h_from := Some "alice@example.com";
          h_date := Some "Mon, 02 Nov 2026 09:00:00 +0000" |}
       "text/plain" (Ret text).

Definition plain_summary (subject text : string) : EmailAgent.EmailSummary :=
  {| EmailAgent.sum_from := Some "alice@example.com";
     EmailAgent.sum_subject := subject;
     EmailAgent.sum_body := text;
     EmailAgent.sum_date := Some "Mon, 02 Nov 2026 09:00:00 +0000" |}.

Fixpoint str_repeat (c : ascii) (n : nat) : string :=
  match n with
  | O => ""
  | S n' => String c (str_repeat c n')
  end.

(** A plain message with a body of 600 characters. *)
Definition long_message : Message :=
  plain_message "Quarterly report" (str_repeat "x" 600).



(** A message whose subject is an encoded word with invalid UTF-8 bytes. *)
Definition undecodable_subject_message : Message :=
  Leaf {| h_subject :=
            BytesSubject (Raise (Exception "UnicodeDecodeError"
                                   "'utf-8' codec can't decode byte 0xff in position 0: invalid start byte"));
          h_from := Some "bob@example.com";
          h_date := None |}
       "text/plain" (Ret "second").

Definition configured_email_agent : EmailAgent.obj :=
  {| EmailAgent.smtp_server := "smtp.gmail.com";
     EmailAgent.smtp_port := 587;
     EmailAgent.email_address := Some "tars@example.com";
     EmailAgent.email_password := Some "app-password" |}.

Definition unconfigured_email_agent : EmailAgent.obj :=
  {| EmailAgent.smtp_server := "smtp.gmail.com";
     EmailAgent.smtp_port := 587;
     EmailAgent.email_address := None;
     EmailAgent.email_password := None |}.

(** An inbox with three messages, numbered 1 to 3. *)
Definition three_message_inbox : MailWorld :=
  mail_world (Ret [Some "1 2 3"])
    (fun email_id => Ret [PartTuple (plain_message email_id "hello"); PartOther])
    (Ret tt).

(** An inbox whose second message has an undecodable subject. *)
Definition inbox_with_bad_subject : MailWorld :=
  mail_world (Ret [Some "1 2 3"])
    (fun email_id =>
       if String.eqb email_id "2" then Ret [PartTuple undecodable_subject_message; PartOther]
       else Ret [PartTuple (plain_message email_id "hello"); PartOther])
    (Ret tt).

(** An inbox whose connection drops while the second message is fetched. *)
Definition inbox_dropping_on_second_fetch : MailWorld :=
  mail_world (Ret [Some "1 2 3"])
    (fun email_id =>
       if String.eqb email_id "2" then Raise (Exception "abort" "socket error: EOF")
       else Ret [PartTuple (plain_message email_id "hello"); PartOther])
    (Ret tt).

(** An inbox whose server drops the connection on [logout]. *)
Definition inbox_failing_on_logout : MailWorld :=
  mail_world (Ret [Some "1 2 3"])
    (fun email_id => Ret [PartTuple (plain_message email_id "hello"); PartOther])
    (Raise (Exception "abort" "socket error: EOF")).

Definition sample_client : TwilioClient :=
  {| account_sid := "AC0123456789"; auth_token := "secret" |}.

Definition sample_message (sid : option string) : MessageInstance :=
  {| mi_sid := sid;
     mi_from_ := Some "+15557654321";
     mi_to := Some "+15551234567";
     mi_body := Some "hello";
     mi_date_sent := Some "2026-11-02 09:00:00+00:00";
     mi_status := Some "received" |}.

Definition provider
    (create : pyresult (option MessageInstance))
    (listed : pyresult (list MessageInstance)) : Provider :=
  {| messages_create := fun _ _ _ => create;
     messages_list := fun _ => listed |}.

Definition messaging_agent (number : option string) : MessagingAgent.obj :=
  {| MessagingAgent.client := Some sample_client;
     MessagingAgent.from_number := MessagingAgent.Assigned number |}.

Definition disabled_messaging_agent : MessagingAgent.obj :=
  {| MessagingAgent.client := None;
     MessagingAgent.from_number := MessagingAgent.Unset |}.

(** An environment with no email credentials and a port that is not a number. *)
Definition env_with_malformed_port : gmap string string :=
  {["SMTP_PORT" := "587/tcp"]}.

(** The environment of an account with credentials but no sender number. *)
Definition env_without_sender_number : gmap string string :=
  <["TWILIO_ACCOUNT_SID" := "AC0123456789"]> (<["TWILIO_AUTH_TOKEN" := "secret"]> ∅).

(** ** Further reference descriptions and samples *)

(** The stored body against the decoded text: the first 500 characters
    exactly when the text is longer, the text itself otherwise. *)
Definition cut_at_500 (stored text : string) : Prop :=
  ((500 < String.length text)%nat ->
     String.length stored = 500%nat /\
     stored = String.substring 0 500 text /\
     exists rest, text = stored +:+ rest) /\
  ((String.length text <= 500)%nat -> stored = text).

(** An inbox of one message, with a body of 600 characters. *)
Definition inbox_with_long_message : MailWorld :=
  mail_world (Ret [Some "7"])
    (fun _ => Ret [PartTuple long_message; PartOther])
    (Ret tt).


(** The library call returned, it did not raise. *)
Definition returned {A} (r : pyresult A) : bool :=
  match r with
  | Ret _ => true
  | Raise _ => false
  end.

(** [isinstance(response_part, tuple)]. *)
Definition is_tuple (response_part : ResponsePart) : bool :=
  match response_part with
  | PartTuple _ => true
  | PartOther => false
  end.

(** The [MIMEMultipart] that [send_email] hands to [_send_sync]. *)
Definition outgoing_message (this : EmailAgent.obj) (to subject body : string)
    (is_html : bool) : MIMEMultipart :=
  {| mime_from := EmailAgent.email_address this;
     mime_to := to;
     mime_subject := subject;
     mime_parts := if is_html then [("html", body)] else [("plain", body)] |}.

(** The four calls that open an IMAP session, as [_read_emails_sync] issues them. *)
Definition session_calls (host : string) (port : Z) (this : EmailAgent.obj)
  : list NetCall :=
  [ImapConnect host port;
   ImapLogin (EmailAgent.email_address this) (EmailAgent.email_password this);
   ImapSelect "inbox";
   ImapSearch "ALL"].

Definition fetch_call (email_id : string) : NetCall := ImapFetch email_id "(RFC822)".

(** An environment with both email credentials and its own IMAP server. *)
Definition env_with_credentials : gmap string string :=
  <["EMAIL_ADDRESS" := "tars@example.com"]>
    (<["EMAIL_PASSWORD" := "app-password"]>
       (<["IMAP_SERVER" := "imap.example.com"]>
          (<["IMAP_PORT" := "1993"]> ∅))).

(** An environment whose [IMAP_PORT] is not a number. *)
Definition env_with_malformed_imap_port : gmap string string :=
  {["IMAP_PORT" := "imaps"]}.

(** A mixed message: an alternative (plain text, then HTML) followed by a
    plain-text attachment. *)
Definition message_with_attachment : Message :=
  Multi {| h_subject := StrSubject "Minutes";
           h_from := Some "carol@example.com";
           h_date := Some "Tue, 03 Nov 2026 08:00:00 +0000" |}
        "multipart/mixed"
        [Multi {| h_subject := missing_subject; h_from := None; h_date := None |}
               "multipart/alternative"
               [Leaf {| h_subject := missing_subject; h_from := None; h_date := None |}
                     "text/plain" (Ret "See the attached notes.");
                Leaf {| h_subject := missing_subject; h_from := None; h_date := None |}
                     "text/html" (Ret "<p>See the attached notes.</p>")];
         Leaf {| h_subject := missing_subject; h_from := None; h_date := None |}
              "text/plain" (Ret "notes.txt: item one, item two")].

(** An SMTP server that refuses STARTTLS. *)
Definition smtp_without_starttls : MailWorld :=
  {| smtp_connect := fun _ _ => Ret tt;
     smtp_starttls := Raise (Exception "SMTPNotSupportedError"
                               "STARTTLS extension not supported by server.");
     smtp_login := fun _ _ => Ret tt;
     smtp_send_message := fun _ => Ret tt;
     smtp_quit := Ret tt;
     imap_connect := fun _ _ => Ret tt;
     imap_login := fun _ _ => Ret tt;
     imap_select := fun _ => Ret tt;
     imap_search := fun _ => Ret [Some ""];
     imap_fetch := fun _ _ => Ret [];
     imap_close := Ret tt;
     imap_logout := Ret tt |}.

(** An IMAP server that refuses the login. *)
Definition imap_refusing_login : MailWorld :=
  {| smtp_connect := fun _ _ => Ret tt;
     smtp_starttls := Ret tt;
     smtp_login := fun _ _ => Ret tt;
     smtp_send_message := fun _ => Ret tt;
     smtp_quit := Ret tt;
     imap_connect := fun _ _ => Ret tt;
     imap_login := fun _ _ =>
       Raise (Exception "error" "[AUTHENTICATIONFAILED] Invalid credentials (Failure)");
     imap_select := fun _ => Ret tt;
     imap_search := fun _ => Ret [Some "1 2 3"];
     imap_fetch := fun email_id _ =>
       Ret [PartTuple (plain_message email_id "hello"); PartOther];
     imap_close := Ret tt;
     imap_logout := Ret tt |}.

(** An inbox whose server fails on [close], after the fetch loop. *)
Definition inbox_failing_on_close : MailWorld :=
  {| smtp_connect := fun _ _ => Ret tt;
     smtp_starttls := Ret tt;
     smtp_login := fun _ _ => Ret tt;
     smtp_send_message := fun _ => Ret tt;
     smtp_quit := Ret tt;
     imap_connect := fun _ _ => Ret tt;
     imap_login := fun _ _ => Ret tt;
     imap_select := fun _ => Ret tt;
     imap_search := fun _ => Ret [Some "1 2 3"];
     imap_fetch := fun email_id _ =>
       Ret [PartTuple (plain_message email_id "hello"); PartOther];
     imap_close := Raise (Exception "abort" "socket error: EOF");
     imap_logout := Ret tt |}.

(** * Properties *)

(** ** Frame: no method assigns to an attribute of [self] *)

Definition keeps_self {Self L A} (m : M Self L A) : Prop :=
  forall s, self (snd (m s)) = self s.

Section KeepsSelf.
Context {Self L : Type}.

Lemma keeps_self_ret {A} (a : A) : keeps_self (ret a : M Self L A).
Proof. intros s. reflexivity. Qed.

Lemma keeps_self_lift {A} (r : pyresult A) : keeps_self (lift r : M Self L A).
Proof. intros s. reflexivity. Qed.

Lemma keeps_self_get_self : keeps_self (get_self : M Self L Self).
Proof. intros s. reflexivity. Qed.

Lemma keeps_self_get_local : keeps_self (get_local : M Self L L).
Proof. intros s. reflexivity. Qed.

Lemma keeps_self_modify_local (f : L -> L) :
  keeps_self (modify_local f : M Self L unit).
Proof. intros s. reflexivity. Qed.

Lemma keeps_self_print (line : string) : keeps_self (print line : M Self L unit).
Proof. intros s. reflexivity. Qed.

Lemma keeps_self_net {A} (c : NetCall) (r : pyresult A) :
  keeps_self (net c r : M Self L A).
Proof. intros s. reflexivity. Qed.

Lemma keeps_self_bind {A B} (m : M Self L A) (k : A -> M Self L B) :
  keeps_self m -> (forall a, keeps_self (k a)) -> keeps_self (bind m k).
Proof.
  intros Hm Hk s. unfold bind.
  specialize (Hm s). destruct (m s) as [[a|e] s']; simpl in *.
  - rewrite Hk. exact Hm.
  - exact Hm.
Qed.

Lemma keeps_self_try_except {A} (body : M Self L A) (handler : exn -> M Self L A) :
  keeps_self body -> (forall e, keeps_self (handler e)) ->
  keeps_self (try_except body handler).
Proof.
  intros Hb Hh s. unfold try_except.
  specialize (Hb s). destruct (body s) as [[a|e] s']; simpl in *.
  - exact Hb.
  - rewrite Hh. exact Hb.
Qed.

Lemma keeps_self_with_exit {A} (body : M Self L A) (exit : M Self L unit) :
  keeps_self body -> keeps_self exit -> keeps_self (with_exit body exit).
Proof.
  intros Hb He s. unfold with_exit.
  specialize (Hb s). destruct (body s) as [r s']; simpl in *.
  specialize (He s'). destruct (exit s') as [[u|e] s'']; simpl in *; congruence.
Qed.

Lemma keeps_self_for_each {A} (xs : list A) (body : A -> M Self L unit) :
  (forall x, keeps_self (body x)) -> keeps_self (for_each xs body).
Proof.
  intros Hb. induction xs as [|x rest IH]; simpl.
  - apply keeps_self_ret.
  - apply keeps_self_bind; [apply Hb | intros _; exact IH].
Qed.

Lemma keeps_self_call {L' A} (init : L') (body : M Self L' A) :
  keeps_self body -> keeps_self (call init body : M Self L A).
Proof.
  intros Hb s. unfold call.
  specialize (Hb (mkSt (self s) init (calls s) (stdout s))).
  destruct (body _) as [r s']; simpl in *. exact Hb.
Qed.
End KeepsSelf.

Ltac keeps_self_step :=
  match goal with
  | |- keeps_self (bind _ _) => apply keeps_self_bind; [|intros ?]
  | |- keeps_self (ret _) => apply keeps_self_ret
  | |- keeps_self (lift _) => apply keeps_self_lift
  | |- keeps_self get_self => apply keeps_self_get_self
  | |- keeps_self get_local => apply keeps_self_get_local
  | |- keeps_self (modify_local _) => apply keeps_self_modify_local
  | |- keeps_self (print _) => apply keeps_self_print
  | |- keeps_self (net _ _) => apply keeps_self_net
  | |- keeps_self (try_except _ _) => apply keeps_self_try_except; [|intros ?]
  | |- keeps_self (with_exit _ _) => apply keeps_self_with_exit
  | |- keeps_self (for_each _ _) => apply keeps_self_for_each; intros ?
  | |- keeps_self (call _ _) => apply keeps_self_call
  | |- keeps_self (if ?b then _ else _) => destruct b
  | |- keeps_self (match ?x with _ => _ end) => destruct x
  end.

Ltac keeps_self_tac := repeat keeps_self_step.

Lemma send_email_keeps_self W to subject body is_html :
  keeps_self (EmailAgent.send_email W to subject body is_html).
Proof. unfold EmailAgent.send_email, EmailAgent._send_sync. keeps_self_tac. Qed.

Lemma read_emails_keeps_self (int : string -> pyresult Z) W env limit :
  keeps_self (EmailAgent.read_emails int W env limit).
Proof.
  unfold EmailAgent.read_emails, EmailAgent._read_emails_sync,
    EmailAgent.email_id_body, EmailAgent.response_part_body.
  keeps_self_tac.
Qed.

Lemma send_sms_keeps_self P to message :
  keeps_self (MessagingAgent.send_sms P to message).
Proof.
  unfold MessagingAgent.send_sms, MessagingAgent._send_sms_sync,
    MessagingAgent.self_from_number, MessagingAgent.self_client_messages.
  keeps_self_tac.
Qed.

Lemma send_whatsapp_keeps_self P to message :
  keeps_self (MessagingAgent.send_whatsapp P to message).
Proof.
  unfold MessagingAgent.send_whatsapp, MessagingAgent._send_whatsapp_sync,
    MessagingAgent.self_from_number, MessagingAgent.self_client_messages.
  keeps_self_tac.
Qed.

Lemma get_messages_keeps_self P limit :
  keeps_self (MessagingAgent.get_messages P limit).
Proof.
  unfold MessagingAgent.get_messages, MessagingAgent._get_messages_sync,
    MessagingAgent.self_client_messages.
  keeps_self_tac.
Qed.

(** C9. Whatever the servers and the provider answer, and whatever the
    arguments, the object after a call to [send_email], [read_emails],
    [send_sms], [send_whatsapp] or [get_messages] is the object before it:
    [smtp_server], [smtp_port], [email_address], [email_password] of the
    email wrapper and [client], [from_number] of the messaging wrapper keep
    their values. *)
Theorem operations_leave_configuration_unchanged (int : string -> pyresult Z)
    (W : MailWorld) (P : Provider) (env : gmap string string)
    (to subject body message : string) (is_html : bool) (limit : Z)
    (e : St EmailAgent.obj unit) (m : St MessagingAgent.obj unit) :
  let after_send_email := self (snd (EmailAgent.send_email W to subject body is_html e)) in
  let after_read_emails := self (snd (EmailAgent.read_emails int W env limit e)) in
  let after_send_sms := self (snd (MessagingAgent.send_sms P to message m)) in
  let after_send_whatsapp := self (snd (MessagingAgent.send_whatsapp P to message m)) in
  let after_get_messages := self (snd (MessagingAgent.get_messages P limit m)) in
  (EmailAgent.smtp_server after_send_email = EmailAgent.smtp_server (self e) /\
   EmailAgent.smtp_port after_send_email = EmailAgent.smtp_port (self e) /\
   EmailAgent.email_address after_send_email = EmailAgent.email_address (self e) /\
   EmailAgent.email_password after_send_email = EmailAgent.email_password (self e)) /\
  (EmailAgent.smtp_server after_read_emails = EmailAgent.smtp_server (self e) /\
   EmailAgent.smtp_port after_read_emails = EmailAgent.smtp_port (self e) /\
   EmailAgent.email_address after_read_emails = EmailAgent.email_address (self e) /\
   EmailAgent.email_password after_read_emails = EmailAgent.email_password (self e)) /\
  (MessagingAgent.client after_send_sms = MessagingAgent.client (self m) /\
   MessagingAgent.from_number after_send_sms = MessagingAgent.from_number (self m)) /\
  (MessagingAgent.client after_send_whatsapp = MessagingAgent.client (self m) /\
   MessagingAgent.from_number after_send_whatsapp = MessagingAgent.from_number (self m)) /\
  (MessagingAgent.client after_get_messages = MessagingAgent.client (self m) /\
   MessagingAgent.from_number after_get_messages = MessagingAgent.from_number (self m)).
Proof.
  cbv zeta.
  rewrite (send_email_keeps_self W to subject body is_html e).
  rewrite (read_emails_keeps_self int W env limit e).
  rewrite (send_sms_keeps_self P to message m).
  rewrite (send_whatsapp_keeps_self P to message m).
  rewrite (get_messages_keeps_self P limit m).
  repeat split.
Qed.

(** ** The reading loop *)

Lemma St_eta {Self L} (s : St Self L) :
  mkSt (self s) (frame s) (calls s) (stdout s) = s.
Proof. destruct s; reflexivity. Qed.

Lemma response_part_tuple msg (s : St EmailAgent.obj (list EmailAgent.EmailSummary)) :
  EmailAgent.response_part_body (PartTuple msg) s =
  match summary_of msg with
  | Ret x => (Ret tt, mkSt (self s) (frame s ++ [x]) (calls s) (stdout s))
  | Raise e => (Raise e, s)
  end.
Proof.
  unfold EmailAgent.response_part_body, summary_of, bind, lift, modify_local.
  destruct (EmailAgent.get_subject msg) as [subject|e]; [|reflexivity].
  destruct (EmailAgent.get_body msg) as [body|e]; reflexivity.
Qed.

Lemma for_each_parts parts :
  forall s : St EmailAgent.obj (list EmailAgent.EmailSummary),
  for_each parts (EmailAgent.response_part_body) s =
  (outcome_of (snd (parts_summaries parts)),
   mkSt (self s) (frame s ++ fst (parts_summaries parts)) (calls s) (stdout s)).
Proof.
  induction parts as [|part rest IH]; intros s.
  - simpl. rewrite app_nil_r, St_eta. reflexivity.
  - destruct part as [msg|].
    + cbn [for_each parts_summaries]. unfold bind at 1.
      rewrite response_part_tuple.
      destruct (summary_of msg) as [x|e].
      * rewrite IH. destruct (parts_summaries rest) as [l r]. cbn.
        rewrite <- app_assoc. reflexivity.
      * cbn. rewrite app_nil_r, St_eta. reflexivity.
    + cbn [for_each parts_summaries]. unfold bind at 1. cbn. apply IH.
Qed.

Lemma for_each_ids W ids :
  forall s : St EmailAgent.obj (list EmailAgent.EmailSummary),
  exists fetches,
    for_each ids (EmailAgent.email_id_body W) s =
    (outcome_of (snd (ids_summaries W ids)),
     mkSt (self s) (frame s ++ fst (ids_summaries W ids)) (calls s ++ fetches) (stdout s)).
Proof.
  induction ids as [|email_id rest IH]; intros s.
  - exists []. simpl. rewrite !app_nil_r, St_eta. reflexivity.
  - cbn [for_each ids_summaries]. unfold bind at 1.
    unfold EmailAgent.email_id_body at 1. unfold bind at 1, net at 1.
    destruct (imap_fetch W email_id "(RFC822)") as [parts|e].
    + rewrite for_each_parts. cbn [self frame calls stdout].
      destruct (parts_summaries parts) as [l [e|]]; cbn [fst snd outcome_of].
      * exists [ImapFetch email_id "(RFC822)"]. reflexivity.
      * match goal with |- context [for_each rest _ ?s'] => destruct (IH s') as [c Hc] end.
        exists (ImapFetch email_id "(RFC822)" :: c). rewrite Hc. cbn [self frame calls stdout].
        destruct (ids_summaries W rest) as [l' r]. cbn [fst snd].
        rewrite <- !app_assoc. reflexivity.
    + exists [ImapFetch email_id "(RFC822)"]. cbn. rewrite app_nil_r. reflexivity.
Qed.

Lemma ids_summaries_app W good rest sums :
  ids_summaries W good = (sums, None) ->
  ids_summaries W (good ++ rest) =
  ((sums ++ fst (ids_summaries W rest))%list, snd (ids_summaries W rest)).
Proof.
  revert sums. induction good as [|email_id good IH]; intros sums H.
  - simpl in H. inversion H. simpl. destruct (ids_summaries W rest); reflexivity.
  - simpl in H. simpl.
    destruct (imap_fetch W email_id "(RFC822)") as [parts|e]; [|discriminate].
    destruct (parts_summaries parts) as [l [e|]]; [discriminate|].
    destruct (ids_summaries W good) as [l' r] eqn:E.
    inversion H; subst. rewrite (IH l' eq_refl). cbn.
    rewrite app_assoc. reflexivity.
Qed.

(** [_read_emails_sync] once the session is open: the summaries built by
    the loop come back, whether the loop or the closing calls raised or not. *)
Lemma read_emails_sync_open W host port limit ids (s : St EmailAgent.obj unit) :
  session_opens W host port (self s) ids ->
  fst (EmailAgent._read_emails_sync W host port limit s) =
  Ret (fst (ids_summaries W (py_slice_from (- limit) ids))).
Proof.
  intros (Hc & Hl & Hs & data & more & Hq & ->).
  unfold EmailAgent._read_emails_sync, call, try_except.
  unfold bind at 1. unfold bind at 1. unfold get_self at 1. cbn [self frame calls stdout].
  unfold bind at 1, net at 1. rewrite Hc. cbn [self frame calls stdout].
  unfold bind at 1, net at 1. rewrite Hl. cbn [self frame calls stdout].
  unfold bind at 1, net at 1. rewrite Hs. cbn [self frame calls stdout].
  unfold bind at 1, net at 1. rewrite Hq. cbn [self frame calls stdout].
  unfold bind at 1, lift at 1. cbn [EmailAgent.messages_0].
  unfold bind at 1, lift at 1. cbn [EmailAgent.split].
  unfold bind at 1.
  match goal with |- context [for_each ?l _ ?s'] => destruct (for_each_ids W l s') as [c Hc'] end.
  rewrite Hc'. cbn [self frame calls stdout].
  destruct (ids_summaries W _) as [l [e|]]; cbn [fst snd outcome_of].
  - reflexivity.
  - unfold bind, net. cbn [self frame calls stdout].
    destruct (imap_close W) as [u|e]; [destruct (imap_logout W) as [u'|e]|]; reflexivity.
Qed.

Lemma read_emails_sync_broken W host port limit (s : St EmailAgent.obj unit) :
  session_fails W host port (self s) ->
  fst (EmailAgent._read_emails_sync W host port limit s) = Ret [].
Proof.
  intros H.
  unfold EmailAgent._read_emails_sync, call, try_except.
  unfold bind at 1. unfold bind at 1. unfold get_self at 1. cbn [self frame calls stdout].
  unfold bind at 1, net at 1.
  destruct (imap_connect W host port) as [u|e] eqn:Ec; [|reflexivity].
  cbn [self frame calls stdout]. unfold bind at 1, net at 1.
  destruct (imap_login W _ _) as [u1|e] eqn:El; [|reflexivity].
  cbn [self frame calls stdout]. unfold bind at 1, net at 1.
  destruct (imap_select W "inbox") as [u2|e] eqn:Es; [|reflexivity].
  cbn [self frame calls stdout]. unfold bind at 1, net at 1.
  destruct (imap_search W "ALL") as [[|[data|] more]|e] eqn:Eq; try reflexivity.
  exfalso.
  destruct H as [[? ?]|[[? ?]|[[? ?]|[[? ?]|[?|[? ?]]]]]]; congruence.
Qed.

(** ** Exceptions stop at the operation boundary *)

Section NeverRaises.
Context {Self L : Type}.

Lemma never_raises_ret {A} (a : A) : never_raises (ret a : M Self L A).
Proof. intros s. exists a. reflexivity. Qed.

Lemma never_raises_get_self : never_raises (get_self : M Self L Self).
Proof. intros s. eexists. reflexivity. Qed.

Lemma never_raises_get_local : never_raises (get_local : M Self L L).
Proof. intros s. eexists. reflexivity. Qed.

Lemma never_raises_print (line : string) : never_raises (print line : M Self L unit).
Proof. intros s. exists tt. reflexivity. Qed.

Lemma never_raises_bind {A B} (m : M Self L A) (k : A -> M Self L B) :
  never_raises m -> (forall a, never_raises (k a)) -> never_raises (bind m k).
Proof.
  intros Hm Hk s. unfold returns, bind.
  destruct (Hm s) as [a Ha]. destruct (m s) as [r s']; simpl in Ha; subst r.
  apply Hk.
Qed.

(** The handler decides: whatever the body raises is caught. *)
Lemma never_raises_try_except {A} (body : M Self L A) (handler : exn -> M Self L A) :
  (forall e, never_raises (handler e)) -> never_raises (try_except body handler).
Proof.
  intros Hh s. unfold returns, try_except.
  destruct (body s) as [[a|e] s'].
  - exists a. reflexivity.
  - apply Hh.
Qed.

Lemma never_raises_call {L' A} (init : L') (body : M Self L' A) :
  never_raises body -> never_raises (call init body : M Self L A).
Proof.
  intros Hb s. unfold returns, call.
  destruct (Hb (mkSt (self s) init (calls s) (stdout s))) as [a Ha].
  destruct (body _) as [r s']; simpl in *. exists a. exact Ha.
Qed.
End NeverRaises.

Ltac never_raises_step :=
  match goal with
  | |- never_raises (try_except _ _) => apply never_raises_try_except; intros ?
  | |- never_raises (bind _ _) => apply never_raises_bind; [|intros ?]
  | |- never_raises (ret _) => apply never_raises_ret
  | |- never_raises get_self => apply never_raises_get_self
  | |- never_raises get_local => apply never_raises_get_local
  | |- never_raises (print _) => apply never_raises_print
  | |- never_raises (call _ _) => apply never_raises_call
  | |- never_raises (if ?b then _ else _) => destruct b
  end.

Ltac never_raises_tac := repeat never_raises_step.

Lemma send_email_never_raises W to subject body is_html :
  never_raises (EmailAgent.send_email W to subject body is_html).
Proof. unfold EmailAgent.send_email. never_raises_tac. Qed.

Lemma read_emails_sync_never_raises W host port limit :
  never_raises (EmailAgent._read_emails_sync W host port limit).
Proof. unfold EmailAgent._read_emails_sync. never_raises_tac. Qed.

Lemma read_emails_never_raises (int : string -> pyresult Z) W env limit :
  never_raises (EmailAgent.read_emails int W env limit).
Proof. unfold EmailAgent.read_emails. never_raises_tac. Qed.

Lemma get_messages_sync_never_raises P limit :
  never_raises (MessagingAgent._get_messages_sync P limit).
Proof. unfold MessagingAgent._get_messages_sync. never_raises_tac. Qed.

Lemma get_messages_never_raises P limit :
  never_raises (MessagingAgent.get_messages P limit).
Proof. unfold MessagingAgent.get_messages. never_raises_tac. Qed.

(** The two senders read [self.from_number] outside their [try]: they
    return on every object that [__init__] can build. *)
Lemma send_sms_returns P to message (s : St MessagingAgent.obj unit) :
  constructed (self s) = true ->
  returns (MessagingAgent.send_sms P to message) s.
Proof.
  unfold constructed, MessagingAgent.send_sms. intros H.
  unfold returns, bind at 1, get_self at 1.
  destruct (MessagingAgent.no_client (self s)) eqn:Hc.
  - eexists. reflexivity.
  - simpl in H. unfold bind at 1, MessagingAgent.self_from_number, bind at 1, get_self at 1.
    destruct (MessagingAgent.from_number (self s)) as [|v]; [discriminate|].
    unfold ret at 1.
    destruct (negb (truthy v)).
    + eexists. reflexivity.
    + match goal with |- exists x, fst (?m s) = Ret x => change (returns m s) end.
      revert s H Hc. intros s _ _. revert s.
      match goal with |- forall s, returns ?m s => change (never_raises m) end.
      never_raises_tac.
Qed.

Lemma send_whatsapp_returns P to message (s : St MessagingAgent.obj unit) :
  constructed (self s) = true ->
  returns (MessagingAgent.send_whatsapp P to message) s.
Proof.
  unfold constructed, MessagingAgent.send_whatsapp. intros H.
  unfold returns, bind at 1, get_self at 1.
  destruct (MessagingAgent.no_client (self s)) eqn:Hc.
  - eexists. reflexivity.
  - simpl in H. unfold bind at 1, MessagingAgent.self_from_number, bind at 1, get_self at 1.
    destruct (MessagingAgent.from_number (self s)) as [|v]; [discriminate|].
    unfold ret at 1.
    match goal with |- context [negb (truthy ?w)] => destruct (negb (truthy w)) end.
    + eexists. reflexivity.
    + match goal with |- exists x, fst (?m s) = Ret x => change (returns m s) end.
      revert s H Hc. intros s _ _. revert s.
      match goal with |- forall s, returns ?m s => change (never_raises m) end.
      never_raises_tac.
Qed.

(** ** Failures during retrieval *)

Lemma read_emails_configured (int : string -> pyresult Z) W env limit port (s : St EmailAgent.obj unit) :
  EmailAgent.credentials_missing (self s) = false ->
  int (getenv_default env "IMAP_PORT" "993") = Ret port ->
  fst (EmailAgent.read_emails int W env limit s) =
  fst (EmailAgent._read_emails_sync W
         (getenv_default env "IMAP_SERVER" "imap.gmail.com") port limit s).
Proof.
  intros Hconf Hport.
  unfold EmailAgent.read_emails, try_except.
  unfold bind at 1, lift at 1. rewrite Hport.
  unfold bind at 1, get_self at 1. rewrite Hconf.
  unfold bind at 1.
  destruct (read_emails_sync_never_raises W
              (getenv_default env "IMAP_SERVER" "imap.gmail.com") port limit s)
    as [emails E].
  destruct (EmailAgent._read_emails_sync W _ port limit s) as [r s'].
  simpl in E. subst r. reflexivity.
Qed.

Lemma read_emails_bad_port (int : string -> pyresult Z) W env limit err (s : St EmailAgent.obj unit) :
  int (getenv_default env "IMAP_PORT" "993") = Raise err ->
  fst (EmailAgent.read_emails int W env limit s) = Ret [].
Proof.
  intros Hport. unfold EmailAgent.read_emails, try_except.
  unfold bind at 1, lift at 1. rewrite Hport. reflexivity.
Qed.

Lemma get_messages_list_raises P limit err (s : St MessagingAgent.obj unit) :
  messages_list P limit = Raise err ->
  fst (MessagingAgent.get_messages P limit s) = Ret [].
Proof.
  intros H. unfold MessagingAgent.get_messages.
  unfold bind at 1, get_self at 1. unfold MessagingAgent.no_client.
  destruct (MessagingAgent.client (self s)) as [c|] eqn:Hc; [|reflexivity].
  unfold try_except, bind at 1, MessagingAgent._get_messages_sync, call.
  unfold bind at 1, try_except, bind at 1, MessagingAgent.self_client_messages.
  unfold bind at 1, get_self at 1. cbn [self]. rewrite Hc.
  unfold ret at 1. unfold bind at 1, net at 1. rewrite H. reflexivity.
Qed.

(** C1, as stated, fails: the second of three messages has a subject that
    cannot be decoded; [read_emails] logs the error and returns the summary
    of the first message, not the empty list. *)
Lemma read_emails_decode_error_keeps_earlier_summaries :
  let run := EmailAgent.read_emails py_int inbox_with_bad_subject ∅ 10
               (fresh configured_email_agent) in
  fst run = Ret [plain_summary "1" "hello"] /\
  fst run <> Ret [] /\
  stdout (snd run) =
    ["[EMAIL] IMAP error: 'utf-8' codec can't decode byte 0xff in position 0: invalid start byte"].
Proof.
  vm_compute. repeat split. discriminate.
Qed.

(** C1, amended. A retrieval that fails returns the summaries it had built
    when the failure occurred.  For [read_emails] on a configured wrapper:
    the empty list when [int] raises on [IMAP_PORT] or when the session
    breaks before the fetch loop; the summaries of the messages already
    processed when fetching or decoding a later message fails; all the
    summaries when only the closing calls can fail.  For [get_messages]:
    the empty list when the provider's list call raises. *)
Theorem retrieval_failure_returns_summaries_built_so_far (int : string -> pyresult Z)
    (W : MailWorld) (P : Provider) (env : gmap string string) (limit : Z)
    (e : St EmailAgent.obj unit) (m : St MessagingAgent.obj unit) :
  EmailAgent.credentials_missing (self e) = false ->
  let host := getenv_default env "IMAP_SERVER" "imap.gmail.com" in
  let result := fst (EmailAgent.read_emails int W env limit e) in
  (forall err, int (getenv_default env "IMAP_PORT" "993") = Raise err ->
     result = Ret []) /\
  (forall port, int (getenv_default env "IMAP_PORT" "993") = Ret port ->
     (session_fails W host port (self e) -> result = Ret []) /\
     (forall ids good bad rest sums partial err,
        session_opens W host port (self e) ids ->
        py_slice_from (- limit) ids = good ++ bad :: rest ->
        ids_summaries W good = (sums, None) ->
        ids_summaries W [bad] = (partial, Some err) ->
        result = Ret (sums ++ partial)) /\
     (forall ids sums,
        session_opens W host port (self e) ids ->
        ids_summaries W (py_slice_from (- limit) ids) = (sums, None) ->
        result = Ret sums)) /\
  (forall err, messages_list P limit = Raise err ->
     fst (MessagingAgent.get_messages P limit m) = Ret []).
Proof.
  intros Hconf host result. subst result. split; [|split].
  - intros err Hport. eapply read_emails_bad_port; eauto.
  - intros port Hport. rewrite (read_emails_configured int W env limit port e Hconf Hport).
    fold host. split; [|split].
    + apply read_emails_sync_broken.
    + intros ids good bad rest sums partial err Hopen Hslice Hgood Hbad.
      rewrite (read_emails_sync_open W host port limit ids e Hopen), Hslice.
      rewrite (ids_summaries_app W good (bad :: rest) sums Hgood). cbn [fst].
      f_equal. f_equal.
      change (bad :: rest) with ([bad] ++ rest).
      revert Hbad. cbn [ids_summaries app].
      destruct (imap_fetch W bad "(RFC822)") as [parts|e'].
      * destruct (parts_summaries parts) as [l [e'|]].
        -- intros H; inversion H; reflexivity.
        -- intros H; inversion H.
      * intros H; inversion H; reflexivity.
    + intros ids sums Hopen Hsums.
      rewrite (read_emails_sync_open W host port limit ids e Hopen), Hsums.
      reflexivity.
  - intros err. apply get_messages_list_raises.
Qed.

Lemma retrieval_failure_returns_summaries_built_so_far_witness :
  EmailAgent.credentials_missing configured_email_agent = false /\
  fst (EmailAgent.read_emails py_int inbox_dropping_on_second_fetch ∅ 10
         (fresh configured_email_agent)) = Ret [plain_summary "1" "hello"] /\
  fst (MessagingAgent.get_messages
         (provider (Ret None) (Raise (Exception "TwilioRestException" "HTTP 401")))
         10 (fresh (messaging_agent None))) = Ret [].
Proof.
  destruct (retrieval_failure_returns_summaries_built_so_far py_int
              inbox_dropping_on_second_fetch
              (provider (Ret None) (Raise (Exception "TwilioRestException" "HTTP 401")))
              ∅ 10 (fresh configured_email_agent) (fresh (messaging_agent None))
              eq_refl) as (_ & Hread & Hlist).
  split; [reflexivity|split].
  - destruct (Hread 993%Z eq_refl) as (_ & Hloop & _).
    apply (Hloop ["1"; "2"; "3"] ["1"] "2" ["3"] [plain_summary "1" "hello"] []
             (Exception "abort" "socket error: EOF")).
    + repeat split. exists "1 2 3", []. split; reflexivity.
    + reflexivity.
    + reflexivity.
    + reflexivity.
  - apply (Hlist (Exception "TwilioRestException" "HTTP 401")). reflexivity.
Defined.

(** ** Calls on an unconfigured wrapper *)

(** C2, as stated, fails: built from an environment with account id and
    secret but no [TWILIO_PHONE_NUMBER], the wrapper has a client and no
    sender number; [get_messages] calls the provider and returns what it
    lists. *)
Lemma get_messages_without_sender_number_calls_provider :
  let this := messaging_agent None in
  let P := provider (Ret None) (Ret [sample_message (Some "SM0001")]) in
  let run := MessagingAgent.get_messages P 10 (fresh this) in
  fst (MessagingAgent.__init__ true env_without_sender_number (fresh tt)) = Ret this /\
  no_sender_number this = true /\
  fst run = Ret [MessagingAgent.message_dict (sample_message (Some "SM0001"))] /\
  fst run <> Ret [] /\
  calls (snd run) = [MessagesList 10].
Proof.
  vm_compute. repeat split. discriminate.
Qed.

(** C2, amended. With the email credentials missing, [send_email] returns
    false and [read_emails] returns the empty list, and neither issues a
    network call.  With no client, or with a client and no sender number,
    [send_sms] and [send_whatsapp] return false without a provider call.
    [get_messages] looks at the client only: with no client it returns the
    empty list without a provider call. *)
Theorem unconfigured_calls_short_circuit (int : string -> pyresult Z)
    (W : MailWorld) (P : Provider) (env : gmap string string)
    (to subject body message : string) (is_html : bool) (limit : Z)
    (e : St EmailAgent.obj unit) (m : St MessagingAgent.obj unit) :
  EmailAgent.credentials_missing (self e) = true ->
  MessagingAgent.no_client (self m) || no_sender_number (self m) = true ->
  let sent_email := EmailAgent.send_email W to subject body is_html e in
  let read := EmailAgent.read_emails int W env limit e in
  let sent_sms := MessagingAgent.send_sms P to message m in
  let sent_whatsapp := MessagingAgent.send_whatsapp P to message m in
  let got := MessagingAgent.get_messages P limit m in
  (fst sent_email = Ret false /\ calls (snd sent_email) = calls e) /\
  (fst read = Ret [] /\ calls (snd read) = calls e) /\
  (fst sent_sms = Ret false /\ calls (snd sent_sms) = calls m) /\
  (fst sent_whatsapp = Ret false /\ calls (snd sent_whatsapp) = calls m) /\
  (MessagingAgent.no_client (self m) = true ->
   fst got = Ret [] /\ calls (snd got) = calls m).
Proof.
  intros He Hm. cbv zeta. repeat apply conj.
  - unfold EmailAgent.send_email, bind at 1, get_self at 1. rewrite He. reflexivity.
  - unfold EmailAgent.send_email, bind at 1, get_self at 1. rewrite He. reflexivity.
  - unfold EmailAgent.read_emails, try_except, bind at 1, lift at 1.
    destruct (int _) as [port|err]; [|reflexivity].
    unfold bind at 1, get_self at 1. rewrite He. reflexivity.
  - unfold EmailAgent.read_emails, try_except, bind at 1, lift at 1.
    destruct (int _) as [port|err]; [|reflexivity].
    unfold bind at 1, get_self at 1. rewrite He. reflexivity.
  - unfold MessagingAgent.send_sms, bind at 1, get_self at 1.
    destruct (MessagingAgent.no_client (self m)); [reflexivity|].
    simpl in Hm. unfold no_sender_number in Hm.
    unfold bind at 1, MessagingAgent.self_from_number, bind at 1, get_self at 1.
    destruct (MessagingAgent.from_number (self m)) as [|v]; [discriminate|].
    unfold ret at 1. rewrite Hm. reflexivity.
  - unfold MessagingAgent.send_sms, bind at 1, get_self at 1.
    destruct (MessagingAgent.no_client (self m)); [reflexivity|].
    simpl in Hm. unfold no_sender_number in Hm.
    unfold bind at 1, MessagingAgent.self_from_number, bind at 1, get_self at 1.
    destruct (MessagingAgent.from_number (self m)) as [|v]; [discriminate|].
    unfold ret at 1. rewrite Hm. reflexivity.
  - unfold MessagingAgent.send_whatsapp, bind at 1, get_self at 1.
    destruct (MessagingAgent.no_client (self m)); [reflexivity|].
    simpl in Hm. unfold no_sender_number in Hm.
    unfold bind at 1, MessagingAgent.self_from_number, bind at 1, get_self at 1.
    destruct (MessagingAgent.from_number (self m)) as [|v]; [discriminate|].
    unfold ret at 1. destruct v as [n|]; [|reflexivity].
    apply negb_true_iff in Hm. rewrite Hm. reflexivity.
  - unfold MessagingAgent.send_whatsapp, bind at 1, get_self at 1.
    destruct (MessagingAgent.no_client (self m)); [reflexivity|].
    simpl in Hm. unfold no_sender_number in Hm.
    unfold bind at 1, MessagingAgent.self_from_number, bind at 1, get_self at 1.
    destruct (MessagingAgent.from_number (self m)) as [|v]; [discriminate|].
    unfold ret at 1. destruct v as [n|]; [|reflexivity].
    apply negb_true_iff in Hm. rewrite Hm. reflexivity.
  - intros Hc.
    split; unfold MessagingAgent.get_messages, bind at 1, get_self at 1;
      rewrite Hc; reflexivity.
Qed.

Lemma unconfigured_calls_short_circuit_witness :
  let W := three_message_inbox in
  let P := provider (Ret (Some (sample_message (Some "SM0001")))) (Ret []) in
  let e := fresh unconfigured_email_agent in
  let m := fresh (messaging_agent None) in
  EmailAgent.credentials_missing (self e) = true /\
  MessagingAgent.no_client (self m) || no_sender_number (self m) = true /\
  fst (EmailAgent.send_email W "bob@example.com" "Hi" "Hello" false e) = Ret false /\
  fst (EmailAgent.read_emails py_int W ∅ 10 e) = Ret [] /\
  fst (MessagingAgent.send_sms P "+15557654321" "Hello" m) = Ret false /\
  fst (MessagingAgent.send_whatsapp P "+15557654321" "Hello" m) = Ret false.
Proof.
  cbv zeta.
  destruct (unconfigured_calls_short_circuit py_int three_message_inbox
              (provider (Ret (Some (sample_message (Some "SM0001")))) (Ret []))
              ∅ "+15557654321" "Hi" "Hello" "Hello" false 10
              (fresh unconfigured_email_agent) (fresh (messaging_agent None))
              eq_refl eq_refl)
    as ((_ & _) & (Hread & _) & (Hsms & _) & (Hwa & _) & _).
  destruct (unconfigured_calls_short_circuit py_int three_message_inbox
              (provider (Ret (Some (sample_message (Some "SM0001")))) (Ret []))
              ∅ "bob@example.com" "Hi" "Hello" "Hello" false 10
              (fresh unconfigured_email_agent) (fresh (messaging_agent None))
              eq_refl eq_refl)
    as ((Hsend & _) & _).
  repeat split; assumption.
Defined.

(** ** The two senders of the messaging wrapper, step by step *)

Lemma truthy_Some (n : string) : n <> "" -> truthy (Some n) = true.
Proof.
  intros H. unfold truthy. apply negb_true_iff. apply String.eqb_neq. exact H.
Qed.

Lemma send_sms_run P to message n (m : St MessagingAgent.obj unit) :
  MessagingAgent.no_client (self m) = false ->
  MessagingAgent.from_number (self m) = MessagingAgent.Assigned (Some n) ->
  n <> "" ->
  MessagingAgent.send_sms P to message m =
  match messages_create P message (Some n) to with
  | Ret msg =>
      (Ret (MessagingAgent.has_sid msg),
       mkSt (self m) (frame m) (calls m ++ [MessagesCreate message (Some n) to])
         (stdout m ++
            [if MessagingAgent.has_sid msg
             then "[MESSAGING] SMS sent to " +:+ to +:+ " (SID: "
                    +:+ MessagingAgent.sid_text msg +:+ ")"
             else "[MESSAGING] Failed to send SMS to " +:+ to]))
  | Raise err =>
      (Ret false,
       mkSt (self m) (frame m) (calls m ++ [MessagesCreate message (Some n) to])
         (stdout m ++ ["[MESSAGING] Error sending SMS: " +:+ str_exn err]))
  end.
Proof.
  intros Hc Hn Hne.
  unfold MessagingAgent.send_sms, bind at 1, get_self at 1. rewrite Hc.
  unfold bind at 1, MessagingAgent.self_from_number at 1, bind at 1, get_self at 1.
  rewrite Hn. unfold ret at 1. rewrite (truthy_Some n Hne). cbn [negb].
  unfold try_except, bind at 1, MessagingAgent._send_sms_sync, bind at 1.
  unfold MessagingAgent.self_client_messages, bind at 1, get_self at 1.
  unfold MessagingAgent.no_client in Hc.
  destruct (MessagingAgent.client (self m)) as [c|]; [|discriminate].
  unfold ret at 1, bind at 1, MessagingAgent.self_from_number, bind at 1, get_self at 1.
  rewrite Hn. unfold ret at 1, net.
  destruct (messages_create P message (Some n) to) as [msg|err]; [|reflexivity].
  destruct (MessagingAgent.has_sid msg); reflexivity.
Qed.

Lemma send_whatsapp_run P to message n (m : St MessagingAgent.obj unit) :
  MessagingAgent.no_client (self m) = false ->
  MessagingAgent.from_number (self m) = MessagingAgent.Assigned (Some n) ->
  n <> "" ->
  let dispatched :=
    MessagesCreate message (Some ("whatsapp:" +:+ n)) ("whatsapp:" +:+ to) in
  MessagingAgent.send_whatsapp P to message m =
  match messages_create P message (Some ("whatsapp:" +:+ n)) ("whatsapp:" +:+ to) with
  | Ret msg =>
      (Ret (MessagingAgent.has_sid msg),
       mkSt (self m) (frame m) (calls m ++ [dispatched])
         (stdout m ++
            [if MessagingAgent.has_sid msg
             then "[MESSAGING] WhatsApp sent to " +:+ to +:+ " (SID: "
                    +:+ MessagingAgent.sid_text msg +:+ ")"
             else "[MESSAGING] Failed to send WhatsApp to " +:+ to]))
  | Raise err =>
      (Ret false,
       mkSt (self m) (frame m) (calls m ++ [dispatched])
         (stdout m ++ ["[MESSAGING] Error sending WhatsApp: " +:+ str_exn err]))
  end.
Proof.
  intros Hc Hn Hne. cbv zeta.
  unfold MessagingAgent.send_whatsapp, bind at 1, get_self at 1. rewrite Hc.
  unfold bind at 1, MessagingAgent.self_from_number at 1, bind at 1, get_self at 1.
  rewrite Hn. unfold ret at 1. rewrite (truthy_Some n Hne).
  change (truthy (Some ("whatsapp:" +:+ n))) with true. cbn [negb].
  unfold try_except, bind at 1, MessagingAgent._send_whatsapp_sync, bind at 1.
  unfold MessagingAgent.self_client_messages, bind at 1, get_self at 1.
  unfold MessagingAgent.no_client in Hc.
  destruct (MessagingAgent.client (self m)) as [c|]; [|discriminate].
  unfold ret at 1, net.
  destruct (messages_create P message _ _) as [msg|err]; [|reflexivity].
  destruct (MessagingAgent.has_sid msg); reflexivity.
Qed.

(** [_send_sync] raises as soon as one of its five SMTP calls does. *)
Lemma send_email_run W (to subject body : string) (is_html : bool)
    (e : St EmailAgent.obj unit) :
  EmailAgent.credentials_missing (self e) = false ->
  let msg := {| mime_from := EmailAgent.email_address (self e);
                mime_to := to;
                mime_subject := subject;
                mime_parts := if is_html then [("html", body)] else [("plain", body)] |} in
  fst (EmailAgent.send_email W to subject body is_html e) =
  match fst (EmailAgent._send_sync W msg to e) with
  | Ret _ => Ret true
  | Raise _ => Ret false
  end.
Proof.
  intros Hconf. cbv zeta.
  unfold EmailAgent.send_email, bind at 1, get_self at 1. rewrite Hconf.
  unfold try_except, bind at 1.
  destruct (EmailAgent._send_sync W _ to e) as [[u|err] s']; reflexivity.
Qed.

(** [_send_sync], call by call. *)
Lemma send_sync_run W msg to (e : St EmailAgent.obj unit) :
  let this := self e in
  let c1 := smtp_connect W (EmailAgent.smtp_server this) (EmailAgent.smtp_port this) in
  let c2 := smtp_starttls W in
  let c3 := smtp_login W (EmailAgent.email_address this) (EmailAgent.email_password this) in
  let c4 := smtp_send_message W msg in
  let c5 := smtp_quit W in
  exists r,
    EmailAgent._send_sync W msg to e =
      (r,
       mkSt (self e) (frame e)
         (calls e ++
            SmtpConnect (EmailAgent.smtp_server this) (EmailAgent.smtp_port this) ::
            (if returned c1 then
               SmtpStarttls ::
               (if returned c2 then
                  SmtpLogin (EmailAgent.email_address this)
                    (EmailAgent.email_password this) ::
                  (if returned c3 then [SmtpSendMessage msg] else [])
                else []) ++ [SmtpQuit]
             else []))
         (stdout e)) /\
    returned r =
      returned c1 && returned c2 && returned c3 && returned c4 && returned c5.
Proof.
  cbv zeta. unfold EmailAgent._send_sync, bind at 1, get_self at 1.
  unfold bind at 1, net at 1.
  destruct (smtp_connect W _ _) as [u1|e1]; cbn [returned andb self frame calls stdout].
  2: { eexists. split; reflexivity. }
  unfold with_exit, bind at 1, net at 1.
  destruct (smtp_starttls W) as [u2|e2]; cbn [returned andb self frame calls stdout].
  2: { unfold net. destruct (smtp_quit W) as [u5|e5]; cbn;
       rewrite <- ?app_assoc; eexists; split; reflexivity. }
  unfold bind at 1, net at 1.
  destruct (smtp_login W _ _) as [u3|e3]; cbn [returned andb self frame calls stdout].
  2: { unfold net. destruct (smtp_quit W) as [u5|e5]; cbn;
       rewrite <- ?app_assoc; eexists; split; reflexivity. }
  unfold net.
  destruct (smtp_send_message W msg) as [u4|e4]; cbn [returned andb self frame calls stdout];
    destruct (smtp_quit W) as [u5|e5]; cbn; rewrite <- ?app_assoc;
    eexists; split; reflexivity.
Qed.

(** C3, as stated, fails for [read_emails]: the server drops the connection
    on [logout], after the three messages have been summarised; the
    exception is caught and logged, and the three summaries are returned,
    not the empty list. *)
Lemma read_emails_logout_error_returns_summaries :
  let run := EmailAgent.read_emails py_int inbox_failing_on_logout ∅ 10
               (fresh configured_email_agent) in
  imap_logout inbox_failing_on_logout = Raise (Exception "abort" "socket error: EOF") /\
  fst run = Ret [plain_summary "1" "hello"; plain_summary "2" "hello";
                 plain_summary "3" "hello"] /\
  fst run <> Ret [] /\
  stdout (snd run) = ["[EMAIL] IMAP error: socket error: EOF"].
Proof.
  vm_compute. repeat split. discriminate.
Qed.

(** C3, amended. On every object that [__init__] can build, none of the five
    operations lets an exception escape.  [send_email] returns false as
    soon as one of its SMTP calls raises (connection, STARTTLS, login,
    transmission or the closing QUIT); [send_sms] and [send_whatsapp]
    return false when the provider's create call raises.  [get_messages]
    returns the empty list when the provider's list call raises.
    [read_emails] returns the empty list when an IMAP call raises before
    the fetch loop (connection, login, mailbox selection, search) and,
    once the session is open, the summaries that the fetch loop built,
    whether or not an exception interrupted it. *)
Theorem exceptions_stop_at_operation_boundary (int : string -> pyresult Z)
    (W : MailWorld) (P : Provider) (env : gmap string string)
    (to subject body message : string) (is_html : bool) (limit : Z)
    (e : St EmailAgent.obj unit) (m : St MessagingAgent.obj unit) :
  constructed (self m) = true ->
  let this := self e in
  let msg := {| mime_from := EmailAgent.email_address this;
                mime_to := to;
                mime_subject := subject;
                mime_parts := if is_html then [("html", body)] else [("plain", body)] |} in
  let host := getenv_default env "IMAP_SERVER" "imap.gmail.com" in
  (returns (EmailAgent.send_email W to subject body is_html) e /\
   returns (EmailAgent.read_emails int W env limit) e /\
   returns (MessagingAgent.send_sms P to message) m /\
   returns (MessagingAgent.send_whatsapp P to message) m /\
   returns (MessagingAgent.get_messages P limit) m) /\
  (EmailAgent.credentials_missing this = false ->
   (exists err, smtp_connect W (EmailAgent.smtp_server this)
                  (EmailAgent.smtp_port this) = Raise err) \/
   (exists err, smtp_starttls W = Raise err) \/
   (exists err, smtp_login W (EmailAgent.email_address this)
                  (EmailAgent.email_password this) = Raise err) \/
   (exists err, smtp_send_message W msg = Raise err) \/
   (exists err, smtp_quit W = Raise err) ->
   fst (EmailAgent.send_email W to subject body is_html e) = Ret false) /\
  (forall n err,
     MessagingAgent.no_client (self m) = false ->
     MessagingAgent.from_number (self m) = MessagingAgent.Assigned (Some n) ->
     n <> "" ->
     messages_create P message (Some n) to = Raise err ->
     fst (MessagingAgent.send_sms P to message m) = Ret false) /\
  (forall n err,
     MessagingAgent.no_client (self m) = false ->
     MessagingAgent.from_number (self m) = MessagingAgent.Assigned (Some n) ->
     n <> "" ->
     messages_create P message (Some ("whatsapp:" +:+ n)) ("whatsapp:" +:+ to) = Raise err ->
     fst (MessagingAgent.send_whatsapp P to message m) = Ret false) /\
  (forall err,
     messages_list P limit = Raise err ->
     fst (MessagingAgent.get_messages P limit m) = Ret []) /\
  (forall port,
     EmailAgent.credentials_missing this = false ->
     int (getenv_default env "IMAP_PORT" "993") = Ret port ->
     session_fails W host port this ->
     fst (EmailAgent.read_emails int W env limit e) = Ret []) /\
  (forall port ids,
     EmailAgent.credentials_missing this = false ->
     int (getenv_default env "IMAP_PORT" "993") = Ret port ->
     session_opens W host port this ids ->
     fst (EmailAgent.read_emails int W env limit e) =
     Ret (fst (ids_summaries W (py_slice_from (- limit) ids)))).
Proof.
  intros Hm this msg host. repeat apply conj.
  - apply send_email_never_raises.
  - apply read_emails_never_raises.
  - apply send_sms_returns, Hm.
  - apply send_whatsapp_returns, Hm.
  - apply get_messages_never_raises.
  - intros Hconf Hraise.
    rewrite (send_email_run W to subject body is_html e Hconf). fold this msg.
    destruct (send_sync_run W msg to e) as (r & Hsync & Hret). fold this in Hret.
    rewrite Hsync. cbn [fst].
    assert (Hfalse : returned r = false).
    { rewrite Hret.
      destruct Hraise as [[err H]|[[err H]|[[err H]|[[err H]|[err H]]]]];
        rewrite H; cbn [returned]; rewrite ?andb_false_r; reflexivity. }
    destruct r; [discriminate | reflexivity].
  - intros n err Hc Hn Hne Hraise.
    rewrite (send_sms_run P to message n m Hc Hn Hne), Hraise. reflexivity.
  - intros n err Hc Hn Hne Hraise.
    rewrite (send_whatsapp_run P to message n m Hc Hn Hne), Hraise. reflexivity.
  - intros err. apply get_messages_list_raises.
  - intros port Hconf Hport Hfail.
    rewrite (read_emails_configured int W env limit port e Hconf Hport).
    apply read_emails_sync_broken. exact Hfail.
  - intros port ids Hconf Hport Hopen.
    rewrite (read_emails_configured int W env limit port e Hconf Hport).
    apply read_emails_sync_open. exact Hopen.
Qed.

Lemma exceptions_stop_at_operation_boundary_witness :
  let P := provider (Raise (Exception "TwilioRestException" "HTTP 503"))
             (Raise (Exception "TwilioRestException" "HTTP 503")) in
  let m := fresh (messaging_agent (Some "+15551234567")) in
  let e := fresh configured_email_agent in
  constructed (self m) = true /\
  returns (MessagingAgent.send_sms P "+15557654321" "Hello") m /\
  fst (EmailAgent.send_email smtp_without_starttls "bob@example.com" "Hi" "Hello" false e)
    = Ret false /\
  fst (MessagingAgent.send_sms P "+15557654321" "Hello" m) = Ret false /\
  fst (MessagingAgent.send_whatsapp P "+15557654321" "Hello" m) = Ret false /\
  fst (MessagingAgent.get_messages P 10 m) = Ret [] /\
  fst (EmailAgent.read_emails py_int imap_refusing_login ∅ 10 e) = Ret [] /\
  fst (EmailAgent.read_emails py_int inbox_dropping_on_second_fetch ∅ 10 e)
    = Ret [plain_summary "1" "hello"].
Proof.
  cbv zeta.
  destruct (exceptions_stop_at_operation_boundary py_int smtp_without_starttls
              (provider (Raise (Exception "TwilioRestException" "HTTP 503"))
                 (Raise (Exception "TwilioRestException" "HTTP 503")))
              ∅ "bob@example.com" "Hi" "Hello" "Hello" false 10
              (fresh configured_email_agent)
              (fresh (messaging_agent (Some "+15551234567"))) eq_refl)
    as (_ & Hmail & _).
  destruct (exceptions_stop_at_operation_boundary py_int imap_refusing_login
              (provider (Raise (Exception "TwilioRestException" "HTTP 503"))
                 (Raise (Exception "TwilioRestException" "HTTP 503")))
              ∅ "+15557654321" "Hi" "Hello" "Hello" false 10
              (fresh configured_email_agent)
              (fresh (messaging_agent (Some "+15551234567"))) eq_refl)
    as ((_ & _ & Hret & _ & _) & _ & Hsms & Hwa & Hlist & Hfail & _).
  destruct (exceptions_stop_at_operation_boundary py_int inbox_dropping_on_second_fetch
              (provider (Raise (Exception "TwilioRestException" "HTTP 503"))
                 (Raise (Exception "TwilioRestException" "HTTP 503")))
              ∅ "+15557654321" "Hi" "Hello" "Hello" false 10
              (fresh configured_email_agent)
              (fresh (messaging_agent (Some "+15551234567"))) eq_refl)
    as (_ & _ & _ & _ & _ & _ & Hopen).
  split; [reflexivity|]. split; [exact Hret|]. repeat apply conj.
  - apply Hmail; [reflexivity|]. right. left. eexists. reflexivity.
  - apply (Hsms "+15551234567" (Exception "TwilioRestException" "HTTP 503"));
      [reflexivity | reflexivity | discriminate | reflexivity].
  - apply (Hwa "+15551234567" (Exception "TwilioRestException" "HTTP 503"));
      [reflexivity | reflexivity | discriminate | reflexivity].
  - apply (Hlist (Exception "TwilioRestException" "HTTP 503")). reflexivity.
  - apply (Hfail 993%Z); [reflexivity | reflexivity |].
    right. left. eexists. reflexivity.
  - eapply eq_trans.
    + apply (Hopen 993%Z ["1"; "2"; "3"]); [reflexivity | reflexivity |].
      repeat split. exists "1 2 3", []. split; reflexivity.
    + vm_compute. reflexivity.
Defined.

(** ** Construction of the email wrapper *)

(** C4, as stated, fails: with no credentials and [SMTP_PORT] set to
    [587/tcp], [int(...)] raises [ValueError] inside [__init__] and no
    object is built. *)
Lemma init_raises_on_malformed_smtp_port :
  getenv env_with_malformed_port "EMAIL_ADDRESS" = None /\
  getenv env_with_malformed_port "EMAIL_PASSWORD" = None /\
  fst (EmailAgent.__init__ py_int env_with_malformed_port (fresh tt)) =
    Raise (Exception "ValueError" "invalid literal for int() with base 10: '587/tcp'").
Proof.
  vm_compute. repeat split.
Qed.

(** C4, amended. When [EMAIL_ADDRESS] or [EMAIL_PASSWORD] is absent and
    [int] returns on the value of [SMTP_PORT] (on [587] when it is absent),
    [__init__] returns an object, prints the warning and nothing else,
    issues no network call, and the object is unconfigured: the credential
    guard of every operation is true on it. *)
Theorem init_without_credentials_warns (int : string -> pyresult Z) (env : gmap string string) (port : Z) :
  getenv env "EMAIL_ADDRESS" = None \/ getenv env "EMAIL_PASSWORD" = None ->
  int (getenv_default env "SMTP_PORT" "587") = Ret port ->
  exists this,
    EmailAgent.__init__ int env (fresh tt) =
      (Ret this,
       mkSt tt tt [] ["[EMAIL] Warning: Email credentials not set in .env file"]) /\
    EmailAgent.credentials_missing this = true /\
    EmailAgent.smtp_port this = port /\
    EmailAgent.smtp_server this = getenv_default env "SMTP_SERVER" "smtp.gmail.com".
Proof.
  intros Hcred Hport.
  assert (Hmiss : negb (truthy (getenv env "EMAIL_ADDRESS"))
                  || negb (truthy (getenv env "EMAIL_PASSWORD")) = true).
  { destruct Hcred as [H|H]; rewrite H; cbn.
    - reflexivity.
    - apply orb_true_r. }
  eexists. split.
  - unfold EmailAgent.__init__, bind at 1, lift at 1. rewrite Hport.
    unfold EmailAgent.credentials_missing.
    cbn [EmailAgent.email_address EmailAgent.email_password].
    rewrite Hmiss. reflexivity.
  - unfold EmailAgent.credentials_missing.
    cbn [EmailAgent.email_address EmailAgent.email_password
         EmailAgent.smtp_port EmailAgent.smtp_server].
    rewrite Hmiss. repeat split.
Qed.

Lemma init_without_credentials_warns_witness :
  (getenv (∅ : gmap string string) "EMAIL_ADDRESS" = None \/
   getenv (∅ : gmap string string) "EMAIL_PASSWORD" = None) /\
  py_int (getenv_default ∅ "SMTP_PORT" "587") = Ret 587%Z /\
  exists this,
    EmailAgent.__init__ py_int ∅ (fresh tt) =
      (Ret this,
       mkSt tt tt [] ["[EMAIL] Warning: Email credentials not set in .env file"]) /\
    EmailAgent.credentials_missing this = true /\
    EmailAgent.smtp_port this = 587%Z /\
    EmailAgent.smtp_server this = getenv_default ∅ "SMTP_SERVER" "smtp.gmail.com".
Proof.
  split; [left; reflexivity|]. split; [reflexivity|].
  apply (init_without_credentials_warns py_int ∅ 587%Z); [left; reflexivity | reflexivity].
Defined.

(** ** The slice [email_ids[-limit:]] *)

(** For a positive [limit] the slice is the last [limit] identifiers, or
    all of them when there are fewer, in mailbox order. *)
Lemma recent_ids_positive {A} (limit : Z) (ids : list A) :
  (0 < limit)%Z ->
  py_slice_from (- limit) ids = drop (length ids - Z.to_nat limit) ids /\
  length (py_slice_from (- limit) ids) = Nat.min (Z.to_nat limit) (length ids).
Proof.
  intros Hpos. unfold py_slice_from.
  assert (Hneg : (- limit <? 0)%Z = true) by (apply Z.ltb_lt; lia).
  rewrite Hneg.
  assert (Hlo : Z.to_nat (Z.max 0 (- limit + Z.of_nat (length ids)))
                = length ids - Z.to_nat limit) by lia.
  rewrite Hlo. split; [reflexivity|].
  rewrite length_drop. lia.
Qed.

(** For [limit = 0] the slice is [email_ids[0:]]: every identifier. *)
Lemma recent_ids_zero {A} (ids : list A) : py_slice_from (- 0) ids = ids.
Proof.
  unfold py_slice_from. cbn [Z.opp Z.ltb Z.compare].
  rewrite Z.min_l by lia. reflexivity.
Qed.

(** For a negative [limit] the slice drops the first [-limit] identifiers. *)
Lemma recent_ids_negative {A} (limit : Z) (ids : list A) :
  (limit < 0)%Z ->
  py_slice_from (- limit) ids = drop (Z.to_nat (- limit)) ids.
Proof.
  intros Hneg. unfold py_slice_from.
  assert (H : (- limit <? 0)%Z = false) by (apply Z.ltb_ge; lia).
  rewrite H.
  destruct (Z.min_spec (- limit) (Z.of_nat (length ids))) as [[_ ->]|[Hle ->]].
  - reflexivity.
  - rewrite Nat2Z.id. rewrite !drop_ge by lia. reflexivity.
Qed.

(** C5. With [limit = 0] on an inbox of three messages, [read_emails]
    fetches all three identifiers and returns three summaries, where the
    specification and the docstring ("Maximum number of emails to
    retrieve") allow none: [email_ids[-0:]] is the whole list. *)
Theorem read_emails_limit_zero_returns_every_message :
  let run := EmailAgent.read_emails py_int three_message_inbox ∅ 0
               (fresh configured_email_agent) in
  fst run = Ret [plain_summary "1" "hello"; plain_summary "2" "hello";
                 plain_summary "3" "hello"] /\
  calls (snd run) =
    [ImapConnect "imap.gmail.com" 993;
     ImapLogin (Some "tars@example.com") (Some "app-password");
     ImapSelect "inbox"; ImapSearch "ALL";
     ImapFetch "1" "(RFC822)"; ImapFetch "2" "(RFC822)"; ImapFetch "3" "(RFC822)";
     ImapClose; ImapLogout] /\
  stdout (snd run) = [].
Proof.
  vm_compute. repeat split.
Qed.

(** ** Sending through the provider *)

(** C6. [send_whatsapp] passes to the provider the sender number and the
    recipient, each prefixed with [whatsapp:]: with a sender number
    configured, the one provider call it issues (none when there is no
    client) is [create(body=message, from_="whatsapp:" + from_number,
    to="whatsapp:" + to)]. *)
Theorem send_whatsapp_tags_sender_and_recipient
    (P : Provider) (to message n : string) (m : St MessagingAgent.obj unit) :
  MessagingAgent.from_number (self m) = MessagingAgent.Assigned (Some n) ->
  n <> "" ->
  calls (snd (MessagingAgent.send_whatsapp P to message m)) =
  calls m ++
    (if MessagingAgent.no_client (self m) then []
     else [MessagesCreate message (Some ("whatsapp:" +:+ n)) ("whatsapp:" +:+ to)]).
Proof.
  intros Hn Hne.
  destruct (MessagingAgent.no_client (self m)) eqn:Hc.
  - unfold MessagingAgent.send_whatsapp, bind at 1, get_self at 1. rewrite Hc.
    cbn. rewrite app_nil_r. reflexivity.
  - pose proof (send_whatsapp_run P to message n m Hc Hn Hne) as Hrun.
    cbv zeta in Hrun. rewrite Hrun.
    destruct (messages_create P message _ _); reflexivity.
Qed.

Lemma send_whatsapp_tags_sender_and_recipient_witness :
  let P := provider (Ret (Some (sample_message (Some "SM0001")))) (Ret []) in
  let m := fresh (messaging_agent (Some "+15551234567")) in
  MessagingAgent.from_number (self m) = MessagingAgent.Assigned (Some "+15551234567") /\
  "+15551234567" <> "" /\
  calls (snd (MessagingAgent.send_whatsapp P "+15557654321" "Hello" m)) =
    [MessagesCreate "Hello" (Some "whatsapp:+15551234567") "whatsapp:+15557654321"].
Proof.
  cbv zeta. split; [reflexivity|]. split; [discriminate|].
  apply (send_whatsapp_tags_sender_and_recipient
           (provider (Ret (Some (sample_message (Some "SM0001")))) (Ret []))
           "+15557654321" "Hello" "+15551234567"
           (fresh (messaging_agent (Some "+15551234567")))).
  - reflexivity.
  - discriminate.
Defined.

Lemma has_sid_iff (msg : option MessageInstance) :
  MessagingAgent.has_sid msg = true <->
  exists mi sid, msg = Some mi /\ mi_sid mi = Some sid /\ sid <> "".
Proof.
  unfold MessagingAgent.has_sid, truthy. split.
  - destruct msg as [mi|]; [|discriminate].
    destruct (mi_sid mi) as [sid|] eqn:Hsid; [|discriminate].
    intros H. apply negb_true_iff, String.eqb_neq in H.
    exists mi, sid. auto.
  - intros (mi & sid & -> & -> & Hne).
    apply negb_true_iff, String.eqb_neq. exact Hne.
Qed.

(** C8. With a client and a sender number, [send_sms] and [send_whatsapp]
    return a boolean: when the provider call returns, true exactly when it
    returned a message object whose [sid] is a non-empty string; when the
    provider call raises, false. *)
Theorem send_returns_true_iff_provider_gives_sid
    (P : Provider) (to message n : string) (m : St MessagingAgent.obj unit) :
  MessagingAgent.no_client (self m) = false ->
  MessagingAgent.from_number (self m) = MessagingAgent.Assigned (Some n) ->
  n <> "" ->
  let delivered (msg : option MessageInstance) :=
    exists mi sid, msg = Some mi /\ mi_sid mi = Some sid /\ sid <> "" in
  (forall msg, messages_create P message (Some n) to = Ret msg ->
     exists b, fst (MessagingAgent.send_sms P to message m) = Ret b /\
               (b = true <-> delivered msg)) /\
  (forall err, messages_create P message (Some n) to = Raise err ->
     fst (MessagingAgent.send_sms P to message m) = Ret false) /\
  (forall msg,
     messages_create P message (Some ("whatsapp:" +:+ n)) ("whatsapp:" +:+ to) = Ret msg ->
     exists b, fst (MessagingAgent.send_whatsapp P to message m) = Ret b /\
               (b = true <-> delivered msg)) /\
  (forall err,
     messages_create P message (Some ("whatsapp:" +:+ n)) ("whatsapp:" +:+ to) = Raise err ->
     fst (MessagingAgent.send_whatsapp P to message m) = Ret false).
Proof.
  intros Hc Hn Hne delivered. repeat apply conj.
  - intros msg Hret. exists (MessagingAgent.has_sid msg).
    rewrite (send_sms_run P to message n m Hc Hn Hne), Hret.
    split; [reflexivity | apply has_sid_iff].
  - intros err Hraise.
    rewrite (send_sms_run P to message n m Hc Hn Hne), Hraise. reflexivity.
  - intros msg Hret. exists (MessagingAgent.has_sid msg).
    rewrite (send_whatsapp_run P to message n m Hc Hn Hne), Hret.
    split; [reflexivity | apply has_sid_iff].
  - intros err Hraise.
    rewrite (send_whatsapp_run P to message n m Hc Hn Hne), Hraise. reflexivity.
Qed.

Lemma send_returns_true_iff_provider_gives_sid_witness :
  let m := fresh (messaging_agent (Some "+15551234567")) in
  MessagingAgent.no_client (self m) = false /\
  fst (MessagingAgent.send_sms
         (provider (Raise (Exception "TwilioRestException" "HTTP 400")) (Ret []))
         "+15557654321" "Hello" m) = Ret false /\
  exists b,
    fst (MessagingAgent.send_sms
           (provider (Ret (Some (sample_message (Some "SM0001")))) (Ret []))
           "+15557654321" "Hello" m) = Ret b /\
    (b = true <->
     exists mi sid, Some (sample_message (Some "SM0001")) = Some mi /\
                    mi_sid mi = Some sid /\ sid <> "").
Proof.
  cbv zeta. split; [reflexivity|]. split.
  - destruct (send_returns_true_iff_provider_gives_sid
                (provider (Raise (Exception "TwilioRestException" "HTTP 400")) (Ret []))
                "+15557654321" "Hello" "+15551234567"
                (fresh (messaging_agent (Some "+15551234567")))
                eq_refl eq_refl) as (_ & Hraise & _); [discriminate|].
    apply (Hraise (Exception "TwilioRestException" "HTTP 400")). reflexivity.
  - destruct (send_returns_true_iff_provider_gives_sid
                (provider (Ret (Some (sample_message (Some "SM0001")))) (Ret []))
                "+15557654321" "Hello" "+15551234567"
                (fresh (messaging_agent (Some "+15551234567")))
                eq_refl eq_refl) as (Hret & _); [discriminate|].
    apply (Hret (Some (sample_message (Some "SM0001")))). reflexivity.
Defined.

(** ** The body of a summary *)

Lemma str_take_length (n : nat) (s : string) :
  String.length (str_take n s) = Nat.min n (String.length s).
Proof.
  revert s. induction n as [|n IH]; intros s.
  - reflexivity.
  - destruct s as [|c r]; [reflexivity|]. simpl. rewrite IH. reflexivity.
Qed.

Lemma str_take_all (n : nat) (s : string) :
  (String.length s <= n)%nat -> str_take n s = s.
Proof.
  revert s. induction n as [|n IH]; intros s H.
  - destruct s; [reflexivity | simpl in H; lia].
  - destruct s as [|c r]; [reflexivity|]. simpl in *. rewrite IH by lia. reflexivity.
Qed.

Lemma str_take_prefix (n : nat) (s : string) :
  exists rest, s = str_take n s +:+ rest.
Proof.
  revert s. induction n as [|n IH]; intros s.
  - exists s. reflexivity.
  - destruct s as [|c r].
    + exists "". reflexivity.
    + destruct (IH r) as [rest Hrest]. exists rest.
      change (String c r = String c (str_take n r +:+ rest)). f_equal. exact Hrest.
Qed.

Lemma str_take_substring (n : nat) (s : string) :
  str_take n s = String.substring 0 n s.
Proof.
  revert s. induction n as [|n IH]; intros s.
  - destruct s; reflexivity.
  - destruct s as [|c r]; [reflexivity|]. simpl. rewrite IH. reflexivity.
Qed.

(** [body[:500]] takes the first 500 characters, or all of a shorter text. *)
Lemma body_slice_500 (text : string) :
  py_slice_to 500 text = str_take (Nat.min 500 (String.length text)) text.
Proof.
  unfold py_slice_to.
  change (500 <? 0)%Z with false. cbv iota.
  replace (Z.to_nat (Z.min 500 (Z.of_nat (String.length text))))
    with (Nat.min 500 (String.length text)) by lia.
  reflexivity.
Qed.

Lemma body_slice_500_take (text : string) :
  py_slice_to 500 text = str_take 500 text.
Proof.
  rewrite body_slice_500.
  destruct (Nat.le_ge_cases 500 (String.length text)) as [H|H].
  - rewrite Nat.min_l by exact H. reflexivity.
  - rewrite Nat.min_r by exact H. rewrite !str_take_all by lia. reflexivity.
Qed.

Lemma response_part_appends msg subject text
    (s : St EmailAgent.obj (list EmailAgent.EmailSummary)) :
  EmailAgent.get_subject msg = Ret subject ->
  EmailAgent.get_body msg = Ret text ->
  EmailAgent.response_part_body (PartTuple msg) s =
  (Ret tt,
   mkSt (self s)
     (frame s ++ [ {| EmailAgent.sum_from := h_from (EmailAgent.headers msg);
                      EmailAgent.sum_subject := subject;
                      EmailAgent.sum_body := py_slice_to 500 text;
                      EmailAgent.sum_date := h_date (EmailAgent.headers msg) |} ])
     (calls s) (stdout s)).
Proof.
  intros Hs Hb. rewrite response_part_tuple. unfold summary_of.
  rewrite Hs, Hb. reflexivity.
Qed.


(** ** What [read_emails] returns, in every case *)

Lemma session_opens_or_fails W host port this :
  session_fails W host port this \/ exists ids, session_opens W host port this ids.
Proof.
  unfold session_fails, session_opens.
  destruct (imap_connect W host port) as [[]|e1]; [|left; eauto].
  destruct (imap_login W _ _) as [[]|e2]; [|left; eauto].
  destruct (imap_select W "inbox") as [[]|e3]; [|left; eauto 6].
  destruct (imap_search W "ALL") as [[|[data|] more]|e4].
  - left. auto 8.
  - right. exists (bytes_split data). repeat split. exists data, more. auto.
  - left. do 5 right. eauto.
  - left. eauto 8.
Qed.

Lemma read_emails_result (int : string -> pyresult Z) W env limit (s : St EmailAgent.obj unit) :
  fst (EmailAgent.read_emails int W env limit s) = Ret [] \/
  exists ids,
    fst (EmailAgent.read_emails int W env limit s) =
    Ret (fst (ids_summaries W (py_slice_from (- limit) ids))).
Proof.
  destruct (int (getenv_default env "IMAP_PORT" "993")) as [port|err] eqn:Hport.
  - destruct (EmailAgent.credentials_missing (self s)) eqn:Hconf.
    + left. unfold EmailAgent.read_emails, try_except, bind at 1, lift at 1.
      rewrite Hport. unfold bind at 1, get_self at 1. rewrite Hconf. reflexivity.
    + rewrite (read_emails_configured int W env limit port s Hconf Hport).
      destruct (session_opens_or_fails W
                  (getenv_default env "IMAP_SERVER" "imap.gmail.com") port (self s))
        as [Hfail|[ids Hopen]].
      * left. apply read_emails_sync_broken, Hfail.
      * right. exists ids. apply read_emails_sync_open, Hopen.
  - left. eapply read_emails_bad_port, Hport.
Qed.

Lemma summary_of_body_length msg x :
  summary_of msg = Ret x -> (String.length (EmailAgent.sum_body x) <= 500)%nat.
Proof.
  unfold summary_of.
  destruct (EmailAgent.get_subject msg) as [subject|e]; [|discriminate].
  destruct (EmailAgent.get_body msg) as [text|e]; [|discriminate].
  intros H. inversion H. cbn [EmailAgent.sum_body].
  rewrite body_slice_500_take, str_take_length. lia.
Qed.

Lemma parts_summaries_bodies parts :
  Forall (fun x => (String.length (EmailAgent.sum_body x) <= 500)%nat)
    (fst (parts_summaries parts)).
Proof.
  induction parts as [|[msg|] rest IH]; cbn [parts_summaries].
  - constructor.
  - destruct (summary_of msg) as [x|e] eqn:Hx; [|constructor].
    destruct (parts_summaries rest) as [l r]. cbn [fst] in *.
    constructor; [eapply summary_of_body_length, Hx | exact IH].
  - exact IH.
Qed.

Lemma ids_summaries_bodies W ids :
  Forall (fun x => (String.length (EmailAgent.sum_body x) <= 500)%nat)
    (fst (ids_summaries W ids)).
Proof.
  induction ids as [|email_id rest IH]; cbn [ids_summaries].
  - constructor.
  - destruct (imap_fetch W email_id "(RFC822)") as [parts|e]; [|constructor].
    pose proof (parts_summaries_bodies parts) as Hparts.
    destruct (parts_summaries parts) as [l [e|]]; cbn [fst] in *; [exact Hparts|].
    destruct (ids_summaries W rest) as [l' r]. cbn [fst] in *.
    apply Forall_app. split; assumption.
Qed.

(** X16. Whatever the server does, no summary returned by [read_emails]
    has a body of more than 500 characters. *)
Lemma read_emails_bodies_at_most_500 (int : string -> pyresult Z) W env limit (s : St EmailAgent.obj unit) emails :
  fst (EmailAgent.read_emails int W env limit s) = Ret emails ->
  Forall (fun x => (String.length (EmailAgent.sum_body x) <= 500)%nat) emails.
Proof.
  intros H. destruct (read_emails_result int W env limit s) as [H0|[ids Hids]].
  - rewrite H0 in H. inversion H. constructor.
  - rewrite Hids in H. inversion H. apply ids_summaries_bodies.
Qed.

(** ** How many summaries a positive [limit] allows *)

Lemma parts_summaries_length parts :
  (length (fst (parts_summaries parts)) <= tuple_count parts)%nat.
Proof.
  induction parts as [|[msg|] rest IH]; cbn [parts_summaries tuple_count].
  - reflexivity.
  - destruct (summary_of msg) as [x|e]; [|cbn; lia].
    destruct (parts_summaries rest) as [l r]. cbn [fst length] in *. lia.
  - exact IH.
Qed.

Lemma ids_summaries_length W ids :
  (forall email_id parts,
     imap_fetch W email_id "(RFC822)" = Ret parts -> (tuple_count parts <= 1)%nat) ->
  (length (fst (ids_summaries W ids)) <= length ids)%nat.
Proof.
  intros Hone. induction ids as [|email_id rest IH]; cbn [ids_summaries].
  - reflexivity.
  - destruct (imap_fetch W email_id "(RFC822)") as [parts|e] eqn:Hf; [|cbn; lia].
    pose proof (parts_summaries_length parts) as Hlen.
    pose proof (Hone email_id parts Hf) as Hle.
    destruct (parts_summaries parts) as [l [e|]]; cbn [fst length] in *; [lia|].
    destruct (ids_summaries W rest) as [l' r]. cbn [fst] in *.
    rewrite length_app. lia.
Qed.

(** X15. With [limit > 0] and a server that answers each fetch with at
    most one message, [read_emails] returns at most [limit] summaries. *)
Lemma read_emails_positive_limit_bound (int : string -> pyresult Z) W env limit (s : St EmailAgent.obj unit) emails :
  (0 < limit)%Z ->
  (forall email_id parts,
     imap_fetch W email_id "(RFC822)" = Ret parts -> (tuple_count parts <= 1)%nat) ->
  fst (EmailAgent.read_emails int W env limit s) = Ret emails ->
  (length emails <= Z.to_nat limit)%nat.
Proof.
  intros Hpos Hone H. destruct (read_emails_result int W env limit s) as [H0|[ids Hids]].
  - rewrite H0 in H. inversion H. cbn. lia.
  - rewrite Hids in H. inversion H.
    pose proof (ids_summaries_length W (py_slice_from (- limit) ids) Hone) as Hlen.
    destruct (recent_ids_positive limit ids Hpos) as [_ Hslice]. lia.
Qed.

(** ** The bodies of the summaries that [read_emails] returns *)

Lemma cut_at_500_slice (text : string) : cut_at_500 (py_slice_to 500 text) text.
Proof.
  unfold cut_at_500. rewrite body_slice_500_take. split.
  - intros Hlong. split; [|split].
    + rewrite str_take_length. lia.
    + apply str_take_substring.
    + apply str_take_prefix.
  - intros Hshort. apply str_take_all. exact Hshort.
Qed.

Lemma parts_summaries_tuples (parts : list ResponsePart) :
  parts_summaries parts = parts_summaries (List.filter is_tuple parts).
Proof.
  induction parts as [|[msg|] rest IH]; cbn [parts_summaries List.filter is_tuple].
  - reflexivity.
  - rewrite IH. reflexivity.
  - exact IH.
Qed.

Lemma summary_of_parts msg x :
  summary_of msg = Ret x ->
  exists subject text,
    EmailAgent.get_subject msg = Ret subject /\
    EmailAgent.get_body msg = Ret text /\
    EmailAgent.sum_body x = py_slice_to 500 text.
Proof.
  unfold summary_of.
  destruct (EmailAgent.get_subject msg) as [subject|e]; [|discriminate].
  destruct (EmailAgent.get_body msg) as [text|e]; [|discriminate].
  intros H. inversion H. exists subject, text. repeat split.
Qed.

Lemma parts_summaries_sound parts x :
  In x (fst (parts_summaries parts)) ->
  exists msg, In (PartTuple msg) parts /\ summary_of msg = Ret x.
Proof.
  induction parts as [|[msg|] rest IH]; cbn [parts_summaries].
  - intros [].
  - destruct (summary_of msg) as [y|e] eqn:Hy; [|intros []].
    destruct (parts_summaries rest) as [l r]. cbn [fst] in *.
    intros [<-|Hin].
    + exists msg. split; [left; reflexivity | exact Hy].
    + destruct (IH Hin) as (msg' & Hin' & Hs). exists msg'. split; [right|]; assumption.
  - intros Hin. destruct (IH Hin) as (msg' & Hin' & Hs).
    exists msg'. split; [right|]; assumption.
Qed.

Lemma ids_summaries_sound W ids x :
  In x (fst (ids_summaries W ids)) ->
  exists email_id parts msg,
    In email_id ids /\
    imap_fetch W email_id "(RFC822)" = Ret parts /\
    In (PartTuple msg) parts /\
    summary_of msg = Ret x.
Proof.
  induction ids as [|email_id rest IH]; cbn [ids_summaries].
  - intros [].
  - destruct (imap_fetch W email_id "(RFC822)") as [parts|e] eqn:Hf; [|intros []].
    pose proof (parts_summaries_sound parts x) as Hparts.
    destruct (parts_summaries parts) as [l [e|]]; cbn [fst] in *.
    + intros Hin. destruct (Hparts Hin) as (msg & Hm & Hs).
      exists email_id, parts, msg. repeat split; auto. left. reflexivity.
    + destruct (ids_summaries W rest) as [l' r]. cbn [fst] in *.
      intros Hin. apply in_app_or in Hin. destruct Hin as [Hin|Hin].
      * destruct (Hparts Hin) as (msg & Hm & Hs).
        exists email_id, parts, msg. repeat split; auto. left. reflexivity.
      * destruct (IH Hin) as (i & p' & msg & Hi & Hf' & Hm & Hs).
        exists i, p', msg. repeat split; auto. right. exact Hi.
Qed.

(** A mailbox that answers every fetch with one message that decodes:
    [bodyf] gives, per identifier, the body that its summary carries. *)
Lemma ids_summaries_bodies_of W (bodyf : string -> string) ids :
  Forall (fun email_id =>
            exists parts msg subject text,
              imap_fetch W email_id "(RFC822)" = Ret parts /\
              List.filter is_tuple parts = [PartTuple msg] /\
              EmailAgent.get_subject msg = Ret subject /\
              EmailAgent.get_body msg = Ret text /\
              bodyf email_id = py_slice_to 500 text) ids ->
  exists sums,
    ids_summaries W ids = (sums, None) /\
    map EmailAgent.sum_body sums = map bodyf ids.
Proof.
  induction 1 as [|email_id rest (parts & msg & subject & text & Hf & Ht & Hs & Hb & He) _ IH].
  - exists []. split; reflexivity.
  - destruct IH as (sums & Hsums & Hmap).
    eexists. split.
    + cbn [ids_summaries]. rewrite Hf, parts_summaries_tuples, Ht.
      cbn [parts_summaries]. unfold summary_of. rewrite Hs, Hb, Hsums. reflexivity.
    + cbn [app map EmailAgent.sum_body]. rewrite He, Hmap. reflexivity.
Qed.

Lemma read_emails_open_bodies (int : string -> pyresult Z) W env limit port ids
    (bodyf : string -> string) (e : St EmailAgent.obj unit) :
  EmailAgent.credentials_missing (self e) = false ->
  int (getenv_default env "IMAP_PORT" "993") = Ret port ->
  session_opens W (getenv_default env "IMAP_SERVER" "imap.gmail.com") port (self e) ids ->
  Forall (fun email_id =>
            exists parts msg subject text,
              imap_fetch W email_id "(RFC822)" = Ret parts /\
              List.filter is_tuple parts = [PartTuple msg] /\
              EmailAgent.get_subject msg = Ret subject /\
              EmailAgent.get_body msg = Ret text /\
              bodyf email_id = py_slice_to 500 text) (py_slice_from (- limit) ids) ->
  exists emails,
    fst (EmailAgent.read_emails int W env limit e) = Ret emails /\
    map EmailAgent.sum_body emails = map bodyf (py_slice_from (- limit) ids).
Proof.
  intros Hconf Hport Hopen Hall.
  destruct (ids_summaries_bodies_of W bodyf _ Hall) as (sums & Hsums & Hmap).
  exists sums. split; [|exact Hmap].
  rewrite (read_emails_configured int W env limit port e Hconf Hport).
  rewrite (read_emails_sync_open W _ port limit ids e Hopen), Hsums. reflexivity.
Qed.

(** C7. Every summary that [read_emails] returns stores the decoded body of
    a fetched message cut at 500 characters: the first 500 characters
    exactly when the decoded body is longer, the decoded body itself when
    it has 500 characters or fewer.  And the bodies do come back: on a
    configured wrapper with an open session whose fetches each answer with
    one message that decodes, [read_emails] returns one summary per
    identifier of [email_ids[-limit:]], in order, each with the body of
    its message cut in this way. *)
Theorem read_emails_cuts_every_body_at_500_characters (int : string -> pyresult Z)
    (W : MailWorld) (env : gmap string string) (limit : Z)
    (e : St EmailAgent.obj unit) :
  (forall emails,
     fst (EmailAgent.read_emails int W env limit e) = Ret emails ->
     Forall (fun x =>
               exists email_id parts msg text,
                 imap_fetch W email_id "(RFC822)" = Ret parts /\
                 In (PartTuple msg) parts /\
                 EmailAgent.get_body msg = Ret text /\
                 cut_at_500 (EmailAgent.sum_body x) text) emails) /\
  (forall port ids (decoded : string -> string),
     EmailAgent.credentials_missing (self e) = false ->
     int (getenv_default env "IMAP_PORT" "993") = Ret port ->
     session_opens W (getenv_default env "IMAP_SERVER" "imap.gmail.com") port
       (self e) ids ->
     Forall (fun email_id =>
               exists parts msg subject,
                 imap_fetch W email_id "(RFC822)" = Ret parts /\
                 List.filter is_tuple parts = [PartTuple msg] /\
                 EmailAgent.get_subject msg = Ret subject /\
                 EmailAgent.get_body msg = Ret (decoded email_id))
       (py_slice_from (- limit) ids) ->
     exists emails,
       fst (EmailAgent.read_emails int W env limit e) = Ret emails /\
       length emails = length (py_slice_from (- limit) ids) /\
       forall i x email_id,
         emails !! i = Some x ->
         py_slice_from (- limit) ids !! i = Some email_id ->
         cut_at_500 (EmailAgent.sum_body x) (decoded email_id)).
Proof.
  split.
  - intros emails Hrun. apply Forall_forall. intros x Hx.
    apply list_elem_of_In in Hx.
    assert (Hin : exists ids, In x (fst (ids_summaries W ids))).
    { destruct (read_emails_result int W env limit e) as [H0|[ids Hids]].
      - rewrite H0 in Hrun. inversion Hrun; subst. destruct Hx.
      - rewrite Hids in Hrun. inversion Hrun; subst. eauto. }
    destruct Hin as (ids & Hin).
    destruct (ids_summaries_sound W ids x Hin) as (email_id & parts & msg & _ & Hf & Hm & Hs).
    destruct (summary_of_parts msg x Hs) as (subject & text & _ & Hb & Hcut).
    exists email_id, parts, msg, text.
    split; [exact Hf|]. split; [exact Hm|]. split; [exact Hb|].
    rewrite Hcut. apply cut_at_500_slice.
  - intros port ids decoded Hconf Hport Hopen Hall.
    destruct (read_emails_open_bodies int W env limit port ids
                (fun email_id => py_slice_to 500 (decoded email_id)) e Hconf Hport Hopen)
      as (emails & Hrun & Hmap).
    { eapply Forall_impl; [exact Hall|].
      intros email_id (parts & msg & subject & Hf & Ht & Hs & Hb).
      exists parts, msg, subject, (decoded email_id). auto. }
    exists emails. split; [exact Hrun|]. split.
    + rewrite <- (length_map EmailAgent.sum_body emails), Hmap, length_map. reflexivity.
    + intros i x email_id Hx Hid.
      assert (Hi : map EmailAgent.sum_body emails !! i = Some (EmailAgent.sum_body x))
        by (rewrite list_lookup_fmap, Hx; reflexivity).
      rewrite Hmap, list_lookup_fmap, Hid in Hi. cbn in Hi.
      assert (Hbody : EmailAgent.sum_body x = py_slice_to 500 (decoded email_id))
        by congruence.
      rewrite Hbody. apply cut_at_500_slice.
Qed.

Lemma read_emails_cuts_every_body_at_500_characters_witness :
  EmailAgent.credentials_missing configured_email_agent = false /\
  exists x,
    fst (EmailAgent.read_emails py_int inbox_with_long_message ∅ 10
           (fresh configured_email_agent)) = Ret [x] /\
    String.length (EmailAgent.sum_body x) = 500%nat /\
    EmailAgent.sum_body x = str_repeat "x" 500.
Proof.
  split; [reflexivity|].
  destruct (read_emails_cuts_every_body_at_500_characters py_int
              inbox_with_long_message ∅ 10 (fresh configured_email_agent))
    as (_ & Hpos).
  destruct (Hpos 993%Z ["7"] (fun _ => str_repeat "x" 600) eq_refl eq_refl)
    as (emails & Hrun & Hlen & Hcut).
  - repeat split. exists "7", []. split; reflexivity.
  - repeat constructor.
    exists [PartTuple long_message; PartOther], long_message, "Quarterly report".
    repeat split.
  - destruct emails as [|x [|y rest]]; [discriminate Hlen | | discriminate Hlen].
    exists x. split; [exact Hrun|].
    destruct (Hcut 0%nat x "7" eq_refl eq_refl) as (Hlong & _).
    assert (H : (500 < String.length (str_repeat "x" 600))%nat)
      by (apply Nat.ltb_lt; vm_compute; reflexivity).
    destruct (Hlong H) as (Hl & Hsub & _).
    split; [exact Hl|]. rewrite Hsub. vm_compute. reflexivity.
Defined.



(** * Further properties of the two wrappers *)

(** ** Construction of the messaging wrapper *)

(** X1. [MessagingAgent.__init__] never raises and never calls the
    provider; it prints one line.  The object has a client exactly when the
    SDK is available and both [TWILIO_ACCOUNT_SID] and [TWILIO_AUTH_TOKEN]
    are non-empty, and then the client holds these two values.  With the
    SDK available [from_number] is what [TWILIO_PHONE_NUMBER] gives; with
    the SDK missing it is left unassigned.  In every case a client comes
    with an assigned [from_number]. *)
Theorem messaging_init_builds_client_iff_credentials
    (TWILIO_AVAILABLE : bool) (env : gmap string string) :
  exists this line,
    MessagingAgent.__init__ TWILIO_AVAILABLE env (fresh tt) =
      (Ret this, mkSt tt tt [] [line]) /\
    constructed this = true /\
    (MessagingAgent.no_client this = false <->
     TWILIO_AVAILABLE = true /\
     truthy (getenv env "TWILIO_ACCOUNT_SID") = true /\
     truthy (getenv env "TWILIO_AUTH_TOKEN") = true) /\
    (forall c, MessagingAgent.client this = Some c ->
       getenv env "TWILIO_ACCOUNT_SID" = Some (account_sid c) /\
       getenv env "TWILIO_AUTH_TOKEN" = Some (auth_token c)) /\
    MessagingAgent.from_number this =
      (if TWILIO_AVAILABLE
       then MessagingAgent.Assigned (getenv env "TWILIO_PHONE_NUMBER")
       else MessagingAgent.Unset).
Proof.
  unfold MessagingAgent.__init__. destruct TWILIO_AVAILABLE; cbn [negb].
  - destruct (getenv env "TWILIO_ACCOUNT_SID") as [sid|] eqn:Hsid;
      [destruct (getenv env "TWILIO_AUTH_TOKEN") as [token|] eqn:Htok|].
    + destruct (truthy (Some sid) && truthy (Some token)) eqn:Hboth.
      * apply andb_true_iff in Hboth. destruct Hboth as [H1 H2].
        do 2 eexists. split; [reflexivity|].
        split; [reflexivity|]. split; [|split; [|reflexivity]].
        -- split; [auto|reflexivity].
        -- intros c Hc. cbn in Hc. inversion Hc. split; reflexivity.
      * do 2 eexists. split; [reflexivity|].
        split; [reflexivity|]. split; [|split; [|reflexivity]].
        -- split; [discriminate|]. intros (_ & H1 & H2).
           rewrite H1, H2 in Hboth. discriminate.
        -- intros c Hc. discriminate.
    + do 2 eexists. split; [reflexivity|].
      split; [reflexivity|]. split; [|split; [|reflexivity]].
      * split; [discriminate|]. intros (_ & _ & H). discriminate.
      * intros c Hc. discriminate.
    + do 2 eexists. split; [reflexivity|].
      split; [reflexivity|]. split; [|split; [|reflexivity]].
      * split; [discriminate|]. intros (_ & H & _). discriminate.
      * intros c Hc. discriminate.
  - do 2 eexists. split; [reflexivity|].
    split; [reflexivity|]. split; [|split; [|reflexivity]].
    + split; [discriminate|]. intros (H & _). discriminate.
    + intros c Hc. discriminate.
Qed.

Lemma init_without_credentials_has_no_client
    (TWILIO_AVAILABLE : bool) (env : gmap string string) (this : MessagingAgent.obj) :
  fst (MessagingAgent.__init__ TWILIO_AVAILABLE env (fresh tt)) = Ret this ->
  TWILIO_AVAILABLE = false \/
  truthy (getenv env "TWILIO_ACCOUNT_SID") = false \/
  truthy (getenv env "TWILIO_AUTH_TOKEN") = false ->
  MessagingAgent.no_client this = true.
Proof.
  unfold MessagingAgent.__init__. intros Hinit Hoff.
  destruct TWILIO_AVAILABLE; cbn [negb] in Hinit.
  - destruct (getenv env "TWILIO_ACCOUNT_SID") as [sid|];
      [destruct (getenv env "TWILIO_AUTH_TOKEN") as [token|]|].
    + destruct (truthy (Some sid) && truthy (Some token)) eqn:Hboth.
      * apply andb_true_iff in Hboth. destruct Hboth as [H1 H2].
        destruct Hoff as [H|[H|H]]; congruence.
      * cbn in Hinit. inversion Hinit. reflexivity.
    + cbn in Hinit. inversion Hinit. reflexivity.
    + cbn in Hinit. inversion Hinit. reflexivity.
  - cbn in Hinit. inversion Hinit. reflexivity.
Qed.

(** X2. A wrapper built without the SDK, or without a non-empty account id
    or secret, is disabled: on the object that [__init__] returns,
    [send_sms] and [send_whatsapp] return false and [get_messages] returns
    the empty list, each printing one line and calling the provider not at
    all, whatever the provider would answer. *)
Theorem messaging_wrapper_without_client_is_disabled
    (P : Provider) (TWILIO_AVAILABLE : bool) (env : gmap string string)
    (this : MessagingAgent.obj) (to message : string) (limit : Z) :
  fst (MessagingAgent.__init__ TWILIO_AVAILABLE env (fresh tt)) = Ret this ->
  TWILIO_AVAILABLE = false \/
  truthy (getenv env "TWILIO_ACCOUNT_SID") = false \/
  truthy (getenv env "TWILIO_AUTH_TOKEN") = false ->
  let silent (line : string) := mkSt this tt [] [line] in
  MessagingAgent.send_sms P to message (fresh this) =
    (Ret false, silent "[MESSAGING] Error: Twilio client not initialized") /\
  MessagingAgent.send_whatsapp P to message (fresh this) =
    (Ret false, silent "[MESSAGING] Error: Twilio client not initialized") /\
  MessagingAgent.get_messages P limit (fresh this) =
    (Ret [], silent "[MESSAGING] Error: Twilio client not initialized").
Proof.
  intros Hinit Hoff.
  pose proof (init_without_credentials_has_no_client
                TWILIO_AVAILABLE env this Hinit Hoff) as Hnone.
  cbv zeta. repeat apply conj.
  - unfold MessagingAgent.send_sms, bind at 1, get_self at 1.
    cbn [fresh self]. rewrite Hnone. reflexivity.
  - unfold MessagingAgent.send_whatsapp, bind at 1, get_self at 1.
    cbn [fresh self]. rewrite Hnone. reflexivity.
  - unfold MessagingAgent.get_messages, bind at 1, get_self at 1.
    cbn [fresh self]. rewrite Hnone. reflexivity.
Qed.

Lemma messaging_wrapper_without_client_is_disabled_witness :
  let P := provider (Ret (Some (sample_message (Some "SM0001"))))
             (Ret [sample_message (Some "SM0002")]) in
  fst (MessagingAgent.__init__ false env_without_sender_number (fresh tt)) =
    Ret disabled_messaging_agent /\
  MessagingAgent.send_sms P "+15557654321" "Hello" (fresh disabled_messaging_agent) =
    (Ret false,
     mkSt disabled_messaging_agent tt []
       ["[MESSAGING] Error: Twilio client not initialized"]) /\
  MessagingAgent.get_messages P 10 (fresh disabled_messaging_agent) =
    (Ret [],
     mkSt disabled_messaging_agent tt []
       ["[MESSAGING] Error: Twilio client not initialized"]).
Proof.
  cbv zeta.
  destruct (messaging_wrapper_without_client_is_disabled
              (provider (Ret (Some (sample_message (Some "SM0001"))))
                 (Ret [sample_message (Some "SM0002")]))
              false env_without_sender_number disabled_messaging_agent
              "+15557654321" "Hello" 10 eq_refl (or_introl eq_refl))
    as (Hsms & _ & Hget).
  split; [reflexivity|]. split; [exact Hsms | exact Hget].
Defined.

(** ** Listing and sending through the provider *)

Lemma append_message_dicts (msgs : list MessageInstance)
    (s : St MessagingAgent.obj (list MessagingAgent.MessageSummary)) :
  for_each msgs
    (fun msg => modify_local
       (fun messages => messages ++ [MessagingAgent.message_dict msg])) s =
  (Ret tt,
   mkSt (self s) (frame s ++ map MessagingAgent.message_dict msgs) (calls s) (stdout s)).
Proof.
  revert s. induction msgs as [|msg rest IH]; intros s.
  - cbn. rewrite app_nil_r, St_eta. reflexivity.
  - cbn [for_each map]. unfold bind at 1, modify_local at 1.
    rewrite IH. cbn [self frame calls stdout].
    rewrite <- app_assoc. reflexivity.
Qed.

(** X3. With a client, when the provider's list call returns,
    [get_messages] issues that one call, with [limit] passed on unchanged,
    prints nothing, and returns one dict per listed message, in the
    provider's order, with [from], [to], [body] and [status] copied and
    [date] the text of [date_sent]: it neither filters nor cuts the list. *)
Theorem get_messages_maps_every_listed_message
    (P : Provider) (limit : Z) (msgs : list MessageInstance)
    (m : St MessagingAgent.obj unit) :
  MessagingAgent.no_client (self m) = false ->
  messages_list P limit = Ret msgs ->
  MessagingAgent.get_messages P limit m =
    (Ret (map MessagingAgent.message_dict msgs),
     mkSt (self m) (frame m) (calls m ++ [MessagesList limit]) (stdout m)) /\
  length (map MessagingAgent.message_dict msgs) = length msgs /\
  (forall i msg, msgs !! i = Some msg ->
     exists d, map MessagingAgent.message_dict msgs !! i = Some d /\
       MessagingAgent.sum_from d = mi_from_ msg /\
       MessagingAgent.sum_to d = mi_to msg /\
       MessagingAgent.sum_body d = mi_body msg /\
       MessagingAgent.sum_status d = mi_status msg /\
       MessagingAgent.sum_date d =
         match mi_date_sent msg with Some t => t | None => "None" end).
Proof.
  intros Hc Hlist. split; [|split].
  - unfold MessagingAgent.get_messages, bind at 1, get_self at 1. rewrite Hc.
    unfold try_except, bind at 1, MessagingAgent._get_messages_sync, call.
    unfold bind at 1, try_except, bind at 1, MessagingAgent.self_client_messages.
    unfold bind at 1, get_self at 1. cbn [self].
    unfold MessagingAgent.no_client in Hc.
    destruct (MessagingAgent.client (self m)) as [c|]; [|discriminate].
    unfold ret at 1, bind at 1, net at 1. rewrite Hlist.
    rewrite append_message_dicts. cbn. reflexivity.
  - apply length_map.
  - intros i msg Hi. exists (MessagingAgent.message_dict msg).
    split; [rewrite list_lookup_fmap, Hi; reflexivity|].
    repeat split.
Qed.

Lemma get_messages_maps_every_listed_message_witness :
  let P := provider (Ret None)
             (Ret [sample_message (Some "SM0001"); sample_message None]) in
  MessagingAgent.no_client (messaging_agent None) = false /\
  MessagingAgent.get_messages P 1 (fresh (messaging_agent None)) =
    (Ret [MessagingAgent.message_dict (sample_message (Some "SM0001"));
          MessagingAgent.message_dict (sample_message None)],
     mkSt (messaging_agent None) tt [MessagesList 1] []).
Proof.
  cbv zeta. split; [reflexivity|].
  destruct (get_messages_maps_every_listed_message
              (provider (Ret None)
                 (Ret [sample_message (Some "SM0001"); sample_message None]))
              1 [sample_message (Some "SM0001"); sample_message None]
              (fresh (messaging_agent None)) eq_refl eq_refl) as (Hrun & _).
  exact Hrun.
Defined.

(** X4. [send_sms] hands the sender number and the recipient to the
    provider as they are, with the message as body: with a sender number
    configured it issues one [create] call (none when there is no client)
    and prints one line. *)
Theorem send_sms_dispatches_plain_numbers
    (P : Provider) (to message n : string) (m : St MessagingAgent.obj unit) :
  MessagingAgent.from_number (self m) = MessagingAgent.Assigned (Some n) ->
  n <> "" ->
  calls (snd (MessagingAgent.send_sms P to message m)) =
    calls m ++
      (if MessagingAgent.no_client (self m) then []
       else [MessagesCreate message (Some n) to]) /\
  length (stdout (snd (MessagingAgent.send_sms P to message m))) =
    S (length (stdout m)).
Proof.
  intros Hn Hne.
  destruct (MessagingAgent.no_client (self m)) eqn:Hc.
  - assert (Hrun : MessagingAgent.send_sms P to message m =
              (Ret false,
               mkSt (self m) (frame m) (calls m)
                 (stdout m ++ ["[MESSAGING] Error: Twilio client not initialized"]))).
    { unfold MessagingAgent.send_sms, bind at 1, get_self at 1. rewrite Hc.
      reflexivity. }
    rewrite Hrun. cbn [snd calls stdout]. rewrite app_nil_r, length_app.
    split; [reflexivity | cbn; lia].
  - rewrite (send_sms_run P to message n m Hc Hn Hne).
    destruct (messages_create P message (Some n) to); cbn [snd calls stdout];
      rewrite length_app; cbn; split; (reflexivity || lia).
Qed.

Lemma send_sms_dispatches_plain_numbers_witness :
  let P := provider (Ret (Some (sample_message (Some "SM0001")))) (Ret []) in
  let m := fresh (messaging_agent (Some "+15551234567")) in
  calls (snd (MessagingAgent.send_sms P "+15557654321" "Hello" m)) =
    [MessagesCreate "Hello" (Some "+15551234567") "+15557654321"].
Proof.
  cbv zeta.
  destruct (send_sms_dispatches_plain_numbers
              (provider (Ret (Some (sample_message (Some "SM0001")))) (Ret []))
              "+15557654321" "Hello" "+15551234567"
              (fresh (messaging_agent (Some "+15551234567"))) eq_refl)
    as (Hcalls & _); [discriminate|].
  exact Hcalls.
Defined.

(** ** Construction of the email wrapper, with and without credentials *)

Lemma truthy_false_iff (v : option string) :
  truthy v = false <-> v = None \/ v = Some "".
Proof.
  unfold truthy. destruct v as [s|].
  - rewrite negb_false_iff, String.eqb_eq. split.
    + intros ->. right. reflexivity.
    + intros [H|H]; [discriminate | inversion H; reflexivity].
  - split; [left; reflexivity | reflexivity].
Qed.

(** X5. [EmailAgent.__init__] never touches the network.  When [int]
    returns on the value of [SMTP_PORT] (on [587] when it is absent),
    [__init__] returns an object holding [SMTP_SERVER] (default
    [smtp.gmail.com]), that port and the two credentials as found; it
    prints the warning exactly when a credential is absent or empty, and
    nothing otherwise.  When [int] raises on that value, its exception
    escapes from [__init__] and nothing is printed. *)
Theorem email_init_warns_iff_credential_missing (int : string -> pyresult Z) (env : gmap string string) :
  match int (getenv_default env "SMTP_PORT" "587") with
  | Ret port =>
      let this := {| EmailAgent.smtp_server :=
                       getenv_default env "SMTP_SERVER" "smtp.gmail.com";
                     EmailAgent.smtp_port := port;
                     EmailAgent.email_address := getenv env "EMAIL_ADDRESS";
                     EmailAgent.email_password := getenv env "EMAIL_PASSWORD" |} in
      let missing :=
        getenv env "EMAIL_ADDRESS" = None \/ getenv env "EMAIL_ADDRESS" = Some "" \/
        getenv env "EMAIL_PASSWORD" = None \/ getenv env "EMAIL_PASSWORD" = Some "" in
      (EmailAgent.credentials_missing this = true <-> missing) /\
      (missing ->
       EmailAgent.__init__ int env (fresh tt) =
         (Ret this,
          mkSt tt tt [] ["[EMAIL] Warning: Email credentials not set in .env file"])) /\
      (~ missing -> EmailAgent.__init__ int env (fresh tt) = (Ret this, fresh tt))
  | Raise err => EmailAgent.__init__ int env (fresh tt) = (Raise err, fresh tt)
  end.
Proof.
  destruct (int (getenv_default env "SMTP_PORT" "587")) as [port|err] eqn:Hport.
  - cbv zeta.
    assert (Hiff : EmailAgent.credentials_missing
                     {| EmailAgent.smtp_server :=
                          getenv_default env "SMTP_SERVER" "smtp.gmail.com";
                        EmailAgent.smtp_port := port;
                        EmailAgent.email_address := getenv env "EMAIL_ADDRESS";
                        EmailAgent.email_password := getenv env "EMAIL_PASSWORD" |} = true <->
                   (getenv env "EMAIL_ADDRESS" = None \/
                    getenv env "EMAIL_ADDRESS" = Some "" \/
                    getenv env "EMAIL_PASSWORD" = None \/
                    getenv env "EMAIL_PASSWORD" = Some "")).
    { unfold EmailAgent.credentials_missing.
      cbn [EmailAgent.email_address EmailAgent.email_password].
      rewrite orb_true_iff, !negb_true_iff, !truthy_false_iff. tauto. }
    split; [exact Hiff|]. split.
    + intros Hmiss. apply Hiff in Hmiss.
      unfold EmailAgent.__init__, bind at 1, lift at 1. rewrite Hport.
      rewrite Hmiss. reflexivity.
    + intros Hok.
      assert (Hc : EmailAgent.credentials_missing
                     {| EmailAgent.smtp_server :=
                          getenv_default env "SMTP_SERVER" "smtp.gmail.com";
                        EmailAgent.smtp_port := port;
                        EmailAgent.email_address := getenv env "EMAIL_ADDRESS";
                        EmailAgent.email_password := getenv env "EMAIL_PASSWORD" |} = false).
      { destruct (EmailAgent.credentials_missing _) eqn:E; [|reflexivity].
        exfalso. apply Hok, Hiff. reflexivity. }
      unfold EmailAgent.__init__, bind at 1, lift at 1. rewrite Hport.
      rewrite Hc. reflexivity.
  - unfold EmailAgent.__init__, bind at 1, lift at 1. rewrite Hport. reflexivity.
Qed.

Lemma init_keeps_credentials (int : string -> pyresult Z) (env : gmap string string) (this : EmailAgent.obj) :
  fst (EmailAgent.__init__ int env (fresh tt)) = Ret this ->
  EmailAgent.email_address this = getenv env "EMAIL_ADDRESS" /\
  EmailAgent.email_password this = getenv env "EMAIL_PASSWORD".
Proof.
  unfold EmailAgent.__init__, bind at 1, lift at 1.
  destruct (int _) as [port|err]; [|discriminate].
  destruct (EmailAgent.credentials_missing _); cbn; intros H; inversion H; split; reflexivity.
Qed.

(** X6. A wrapper built from an environment in which [EMAIL_ADDRESS] or
    [EMAIL_PASSWORD] is absent or empty sends and reads nothing: on the
    object that [__init__] returns, [send_email] returns false and
    [read_emails] returns the empty list, with no network call, each
    printing the one line that says the credentials are not configured
    (for [read_emails], provided [int] returns on the value of [IMAP_PORT],
    or on [993] when it is absent). *)
Theorem email_wrapper_without_credentials_is_disabled (int : string -> pyresult Z)
    (W : MailWorld) (env : gmap string string) (this : EmailAgent.obj)
    (to subject body : string) (is_html : bool) (limit port : Z) :
  fst (EmailAgent.__init__ int env (fresh tt)) = Ret this ->
  truthy (getenv env "EMAIL_ADDRESS") = false \/
  truthy (getenv env "EMAIL_PASSWORD") = false ->
  int (getenv_default env "IMAP_PORT" "993") = Ret port ->
  EmailAgent.send_email W to subject body is_html (fresh this) =
    (Ret false, mkSt this tt [] ["[EMAIL] Error: Email credentials not configured"]) /\
  EmailAgent.read_emails int W env limit (fresh this) =
    (Ret [], mkSt this tt [] ["[EMAIL] Error: Email credentials not configured"]).
Proof.
  intros Hinit Hmiss Hport.
  destruct (init_keeps_credentials int env this Hinit) as [Ha Hp].
  assert (Hc : EmailAgent.credentials_missing this = true).
  { unfold EmailAgent.credentials_missing. rewrite Ha, Hp.
    destruct Hmiss as [H|H]; rewrite H; cbn; [reflexivity | apply orb_true_r]. }
  split.
  - unfold EmailAgent.send_email, bind at 1, get_self at 1.
    cbn [fresh self]. rewrite Hc. reflexivity.
  - unfold EmailAgent.read_emails, try_except, bind at 1, lift at 1. rewrite Hport.
    unfold bind at 1, get_self at 1. cbn [fresh self]. rewrite Hc. reflexivity.
Qed.

Lemma email_wrapper_without_credentials_is_disabled_witness :
  fst (EmailAgent.__init__ py_int ∅ (fresh tt)) = Ret unconfigured_email_agent /\
  EmailAgent.send_email three_message_inbox "bob@example.com" "Hi" "Hello" false
    (fresh unconfigured_email_agent) =
    (Ret false,
     mkSt unconfigured_email_agent tt []
       ["[EMAIL] Error: Email credentials not configured"]) /\
  EmailAgent.read_emails py_int three_message_inbox ∅ 10 (fresh unconfigured_email_agent) =
    (Ret [],
     mkSt unconfigured_email_agent tt []
       ["[EMAIL] Error: Email credentials not configured"]).
Proof.
  split; [reflexivity|].
  apply (email_wrapper_without_credentials_is_disabled py_int three_message_inbox ∅
           unconfigured_email_agent "bob@example.com" "Hi" "Hello" false 10 993%Z).
  - reflexivity.
  - left. reflexivity.
  - reflexivity.
Defined.

(** ** Sending one email *)

(** X7. On a configured wrapper [send_email] returns true exactly when the
    five SMTP steps all return: connection to [smtp_server]:[smtp_port],
    STARTTLS, login with the two credentials, transmission of the message,
    and the closing QUIT; in every other case it returns false. *)
Theorem send_email_true_iff_every_smtp_step_succeeds
    (W : MailWorld) (to subject body : string) (is_html : bool)
    (e : St EmailAgent.obj unit) :
  EmailAgent.credentials_missing (self e) = false ->
  let this := self e in
  let msg := outgoing_message this to subject body is_html in
  fst (EmailAgent.send_email W to subject body is_html e) =
    Ret (returned (smtp_connect W (EmailAgent.smtp_server this) (EmailAgent.smtp_port this))
         && returned (smtp_starttls W)
         && returned (smtp_login W (EmailAgent.email_address this)
                        (EmailAgent.email_password this))
         && returned (smtp_send_message W msg)
         && returned (smtp_quit W)).
Proof.
  intros Hconf this msg.
  pose proof (send_email_run W to subject body is_html e Hconf) as Hrun.
  cbv zeta in Hrun. rewrite Hrun.
  destruct (send_sync_run W msg to e) as (r & Hsync & Hret).
  subst msg this. unfold outgoing_message in *.
  rewrite Hsync. cbn [fst]. rewrite <- Hret.
  destruct r; reflexivity.
Qed.

Lemma send_email_true_iff_every_smtp_step_succeeds_witness :
  EmailAgent.credentials_missing configured_email_agent = false /\
  fst (EmailAgent.send_email three_message_inbox "bob@example.com" "Hi" "Hello" false
         (fresh configured_email_agent)) = Ret true /\
  fst (EmailAgent.send_email smtp_without_starttls "bob@example.com" "Hi" "Hello" false
         (fresh configured_email_agent)) = Ret false.
Proof.
  split; [reflexivity|]. split.
  - apply (send_email_true_iff_every_smtp_step_succeeds three_message_inbox
             "bob@example.com" "Hi" "Hello" false (fresh configured_email_agent)).
    reflexivity.
  - apply (send_email_true_iff_every_smtp_step_succeeds smtp_without_starttls
             "bob@example.com" "Hi" "Hello" false (fresh configured_email_agent)).
    reflexivity.
Defined.

(** X8. On a configured wrapper the network calls of [send_email] follow
    one order and stop at the first failure: connection first; STARTTLS only
    on an open connection; login only after STARTTLS returned, so the
    credentials never travel after a refused STARTTLS; the message, with
    [From] the wrapper's address, the given [To] and [Subject] and one part
    of subtype [html] or [plain] as [is_html] says, only after login
    returned, and once at most; QUIT whenever the connection was opened,
    whatever happened after.  One line is printed. *)
Theorem send_email_calls_in_order_until_first_failure
    (W : MailWorld) (to subject body : string) (is_html : bool)
    (e : St EmailAgent.obj unit) :
  EmailAgent.credentials_missing (self e) = false ->
  let this := self e in
  let msg := {| mime_from := EmailAgent.email_address this;
                mime_to := to;
                mime_subject := subject;
                mime_parts := [(if is_html then "html" else "plain", body)] |} in
  let after := snd (EmailAgent.send_email W to subject body is_html e) in
  calls after =
    calls e ++
      SmtpConnect (EmailAgent.smtp_server this) (EmailAgent.smtp_port this) ::
      (if returned (smtp_connect W (EmailAgent.smtp_server this)
                      (EmailAgent.smtp_port this)) then
         SmtpStarttls ::
         (if returned (smtp_starttls W) then
            SmtpLogin (EmailAgent.email_address this) (EmailAgent.email_password this) ::
            (if returned (smtp_login W (EmailAgent.email_address this)
                            (EmailAgent.email_password this))
             then [SmtpSendMessage msg] else [])
          else []) ++ [SmtpQuit]
       else []) /\
  length (stdout after) = S (length (stdout e)).
Proof.
  intros Hconf this msg after.
  assert (Hmsg : msg = outgoing_message this to subject body is_html).
  { unfold msg, outgoing_message. destruct is_html; reflexivity. }
  rewrite Hmsg.
  destruct (send_sync_run W (outgoing_message this to subject body is_html) to e)
    as (r & Hsync & _).
  fold this in Hsync.
  assert (Hrun : exists b line,
             EmailAgent.send_email W to subject body is_html e =
             (Ret b,
              mkSt (self e) (frame e)
                (calls (snd (EmailAgent._send_sync W
                               (outgoing_message this to subject body is_html) to e)))
                (stdout e ++ [line]))).
  { unfold EmailAgent.send_email, bind at 1, get_self at 1. rewrite Hconf.
    unfold try_except, bind at 1.
    change {| mime_from := EmailAgent.email_address (self e);
              mime_to := to; mime_subject := subject;
              mime_parts := if is_html then [("html", body)] else [("plain", body)] |}
      with (outgoing_message this to subject body is_html).
    rewrite Hsync. destruct r as [u|err]; do 2 eexists; reflexivity. }
  destruct Hrun as (b & line & Hrun). subst after. rewrite Hrun, Hsync.
  cbn [snd calls stdout]. split; [reflexivity|].
  rewrite length_app. cbn [length]. lia.
Qed.

Lemma send_email_calls_in_order_until_first_failure_witness :
  EmailAgent.credentials_missing configured_email_agent = false /\
  calls (snd (EmailAgent.send_email smtp_without_starttls
                "bob@example.com" "Hi" "<b>Hello</b>" true
                (fresh configured_email_agent))) =
    [SmtpConnect "smtp.gmail.com" 587; SmtpStarttls; SmtpQuit] /\
  calls (snd (EmailAgent.send_email three_message_inbox
                "bob@example.com" "Hi" "<b>Hello</b>" true
                (fresh configured_email_agent))) =
    [SmtpConnect "smtp.gmail.com" 587; SmtpStarttls;
     SmtpLogin (Some "tars@example.com") (Some "app-password");
     SmtpSendMessage {| mime_from := Some "tars@example.com";
                        mime_to := "bob@example.com";
                        mime_subject := "Hi";
                        mime_parts := [("html", "<b>Hello</b>")] |};
     SmtpQuit].
Proof.
  split; [reflexivity|]. split.
  - destruct (send_email_calls_in_order_until_first_failure smtp_without_starttls
                "bob@example.com" "Hi" "<b>Hello</b>" true
                (fresh configured_email_agent) eq_refl) as (Hcalls & _).
    exact Hcalls.
  - destruct (send_email_calls_in_order_until_first_failure three_message_inbox
                "bob@example.com" "Hi" "<b>Hello</b>" true
                (fresh configured_email_agent) eq_refl) as (Hcalls & _).
    exact Hcalls.
Defined.

(** ** Reading the inbox, call by call *)

Lemma read_emails_configured_run (int : string -> pyresult Z) W env limit port (s : St EmailAgent.obj unit) :
  EmailAgent.credentials_missing (self s) = false ->
  int (getenv_default env "IMAP_PORT" "993") = Ret port ->
  EmailAgent.read_emails int W env limit s =
  EmailAgent._read_emails_sync W
    (getenv_default env "IMAP_SERVER" "imap.gmail.com") port limit s.
Proof.
  intros Hconf Hport.
  unfold EmailAgent.read_emails, try_except.
  unfold bind at 1, lift at 1. rewrite Hport.
  unfold bind at 1, get_self at 1. rewrite Hconf.
  unfold bind at 1.
  destruct (read_emails_sync_never_raises W
              (getenv_default env "IMAP_SERVER" "imap.gmail.com") port limit s)
    as [emails E].
  destruct (EmailAgent._read_emails_sync W _ port limit s) as [r s'].
  simpl in E. subst r. reflexivity.
Qed.

Lemma for_each_app {Self L A} (xs ys : list A) (body : A -> M Self L unit) s :
  for_each (xs ++ ys) body s = (for_each xs body ;; for_each ys body) s.
Proof.
  revert s. induction xs as [|x rest IH]; intros s.
  - reflexivity.
  - cbn [app for_each]. unfold bind.
    destruct (body x s) as [[u|e] s1]; [|reflexivity].
    rewrite IH. unfold bind. reflexivity.
Qed.

Lemma email_id_body_run W email_id (s : St EmailAgent.obj (list EmailAgent.EmailSummary)) :
  EmailAgent.email_id_body W email_id s =
  (outcome_of (snd (ids_summaries W [email_id])),
   mkSt (self s) (frame s ++ fst (ids_summaries W [email_id]))
     (calls s ++ [fetch_call email_id]) (stdout s)).
Proof.
  unfold EmailAgent.email_id_body, bind at 1, net at 1. cbn [ids_summaries].
  destruct (imap_fetch W email_id "(RFC822)") as [parts|e].
  - rewrite for_each_parts. cbn [self frame calls stdout].
    destruct (parts_summaries parts) as [l [e|]]; cbn [fst snd];
      rewrite ?app_nil_r; reflexivity.
  - cbn. rewrite app_nil_r. reflexivity.
Qed.

Lemma fetch_loop_run W good sums
    (s : St EmailAgent.obj (list EmailAgent.EmailSummary)) :
  ids_summaries W good = (sums, None) ->
  for_each good (EmailAgent.email_id_body W) s =
  (Ret tt,
   mkSt (self s) (frame s ++ sums) (calls s ++ map fetch_call good) (stdout s)).
Proof.
  revert sums s. induction good as [|email_id rest IH]; intros sums s H.
  - cbn in H. inversion H. cbn. rewrite !app_nil_r, St_eta. reflexivity.
  - cbn [for_each map]. unfold bind at 1. rewrite email_id_body_run.
    cbn [ids_summaries] in *.
    destruct (imap_fetch W email_id "(RFC822)") as [parts|e]; [|discriminate].
    destruct (parts_summaries parts) as [l [e|]]; [discriminate|].
    destruct (ids_summaries W rest) as [l' r] eqn:Hrest.
    inversion H; subst. cbn [fst snd outcome_of].
    rewrite (IH l' _ eq_refl). cbn [self frame calls stdout].
    rewrite app_nil_r, <- !app_assoc. reflexivity.
Qed.

Lemma session_prefix_run W host port limit ids (s : St EmailAgent.obj unit) :
  session_opens W host port (self s) ids ->
  EmailAgent._read_emails_sync W host port limit s =
  (let start := mkSt (self s) [] (calls s ++ session_calls host port (self s)) (stdout s) in
   match for_each (py_slice_from (- limit) ids) (EmailAgent.email_id_body W) start with
   | (Ret _, s1) =>
       match imap_close W with
       | Ret _ =>
           match imap_logout W with
           | Ret _ =>
               (Ret (frame s1),
                mkSt (self s1) (frame s) (calls s1 ++ [ImapClose; ImapLogout]) (stdout s1))
           | Raise err =>
               (Ret (frame s1),
                mkSt (self s1) (frame s) (calls s1 ++ [ImapClose; ImapLogout])
                  (stdout s1 ++ ["[EMAIL] IMAP error: " +:+ str_exn err]))
           end
       | Raise err =>
           (Ret (frame s1),
            mkSt (self s1) (frame s) (calls s1 ++ [ImapClose])
              (stdout s1 ++ ["[EMAIL] IMAP error: " +:+ str_exn err]))
       end
   | (Raise err, s1) =>
       (Ret (frame s1),
        mkSt (self s1) (frame s) (calls s1)
          (stdout s1 ++ ["[EMAIL] IMAP error: " +:+ str_exn err]))
   end).
Proof.
  intros (Hc & Hl & Hs & data & more & Hq & ->). cbv zeta.
  unfold EmailAgent._read_emails_sync, call, try_except.
  unfold bind at 1. unfold bind at 1. unfold get_self at 1. cbn [self frame calls stdout].
  unfold bind at 1, net at 1. rewrite Hc. cbn [self frame calls stdout].
  unfold bind at 1, net at 1. rewrite Hl. cbn [self frame calls stdout].
  unfold bind at 1, net at 1. rewrite Hs. cbn [self frame calls stdout].
  unfold bind at 1, net at 1. rewrite Hq. cbn [self frame calls stdout].
  unfold bind at 1, lift at 1. cbn [EmailAgent.messages_0].
  unfold bind at 1, lift at 1. cbn [EmailAgent.split].
  unfold bind at 1. unfold session_calls. rewrite <- !app_assoc. cbn [app].
  destruct (for_each _ _ _) as [[u|err] s1].
  - unfold bind, net. cbn [self frame calls stdout].
    destruct (imap_close W) as [u1|e1]; [destruct (imap_logout W) as [u2|e2]|];
      cbn; rewrite <- ?app_assoc; reflexivity.
  - reflexivity.
Qed.

Lemma ids_summaries_one_each W (summary : string -> EmailAgent.EmailSummary) ids :
  Forall (fun email_id =>
            exists msg, imap_fetch W email_id "(RFC822)" = Ret [PartTuple msg; PartOther] /\
                        summary_of msg = Ret (summary email_id)) ids ->
  ids_summaries W ids = (map summary ids, None).
Proof.
  induction 1 as [|email_id rest (msg & Hf & Hs) _ IH]; [reflexivity|].
  cbn [ids_summaries parts_summaries map]. rewrite Hf.
  cbn [parts_summaries]. rewrite Hs, IH. reflexivity.
Qed.

(** X9. On a configured wrapper, when every IMAP call returns and each
    fetch answers with one message (a tuple followed by the closing bytes)
    that decodes, [read_emails] connects to [IMAP_SERVER] (default
    [imap.gmail.com]) on the port that [int] reads from [IMAP_PORT]
    (default [993]), logs in, selects [inbox], searches
    [ALL], fetches the identifiers of [email_ids[-limit:]] one by one in
    mailbox order with [(RFC822)], closes and logs out.  It returns one
    summary per fetched identifier, in that order, and prints nothing. *)
Theorem read_emails_one_summary_per_message_in_mailbox_order (int : string -> pyresult Z)
    (W : MailWorld) (env : gmap string string) (limit port : Z)
    (ids : list string) (summary : string -> EmailAgent.EmailSummary)
    (e : St EmailAgent.obj unit) :
  EmailAgent.credentials_missing (self e) = false ->
  int (getenv_default env "IMAP_PORT" "993") = Ret port ->
  let host := getenv_default env "IMAP_SERVER" "imap.gmail.com" in
  let recent := py_slice_from (- limit) ids in
  session_opens W host port (self e) ids ->
  Forall (fun email_id =>
            exists msg, imap_fetch W email_id "(RFC822)" = Ret [PartTuple msg; PartOther] /\
                        summary_of msg = Ret (summary email_id)) recent ->
  imap_close W = Ret tt ->
  imap_logout W = Ret tt ->
  EmailAgent.read_emails int W env limit e =
    (Ret (map summary recent),
     mkSt (self e) (frame e)
       (calls e ++ session_calls host port (self e) ++ map fetch_call recent
          ++ [ImapClose; ImapLogout])
       (stdout e)).
Proof.
  intros Hconf Hport host recent Hopen Hall Hclose Hlogout.
  rewrite (read_emails_configured_run int W env limit port e Hconf Hport). fold host.
  rewrite (session_prefix_run W host port limit ids e Hopen). cbv zeta. fold recent.
  rewrite (fetch_loop_run W recent (map summary recent) _
             (ids_summaries_one_each W summary recent Hall)).
  rewrite Hclose, Hlogout. cbn [self frame calls stdout app].
  rewrite <- !app_assoc. reflexivity.
Qed.

Lemma read_emails_one_summary_per_message_in_mailbox_order_witness :
  EmailAgent.credentials_missing configured_email_agent = false /\
  EmailAgent.read_emails py_int three_message_inbox env_with_credentials 2
    (fresh configured_email_agent) =
    (Ret [plain_summary "2" "hello"; plain_summary "3" "hello"],
     mkSt configured_email_agent tt
       [ImapConnect "imap.example.com" 1993;
        ImapLogin (Some "tars@example.com") (Some "app-password");
        ImapSelect "inbox"; ImapSearch "ALL";
        ImapFetch "2" "(RFC822)"; ImapFetch "3" "(RFC822)";
        ImapClose; ImapLogout]
       []).
Proof.
  split; [reflexivity|].
  apply (read_emails_one_summary_per_message_in_mailbox_order py_int three_message_inbox
           env_with_credentials 2 1993%Z ["1"; "2"; "3"]
           (fun email_id => plain_summary email_id "hello")
           (fresh configured_email_agent)).
  - reflexivity.
  - reflexivity.
  - repeat split. exists "1 2 3", []. split; reflexivity.
  - repeat constructor; eexists; split; reflexivity.
  - reflexivity.
  - reflexivity.
Defined.

(** X10. On a configured wrapper with an open session, when the messages
    [good] are fetched and summarised and the next one, [bad], fails (its
    fetch raises, or its subject or body does not decode), [read_emails]
    stops there: the identifiers after [bad] are never fetched, [close] and
    [logout] are never called, one line with the text of the exception is
    printed, and the summaries built so far are returned. *)
Theorem read_emails_stops_at_first_failing_message (int : string -> pyresult Z)
    (W : MailWorld) (env : gmap string string) (limit port : Z)
    (ids good rest : list string) (bad : string)
    (sums partial : list EmailAgent.EmailSummary) (err : exn)
    (e : St EmailAgent.obj unit) :
  EmailAgent.credentials_missing (self e) = false ->
  int (getenv_default env "IMAP_PORT" "993") = Ret port ->
  let host := getenv_default env "IMAP_SERVER" "imap.gmail.com" in
  session_opens W host port (self e) ids ->
  py_slice_from (- limit) ids = good ++ bad :: rest ->
  ids_summaries W good = (sums, None) ->
  ids_summaries W [bad] = (partial, Some err) ->
  EmailAgent.read_emails int W env limit e =
    (Ret (sums ++ partial),
     mkSt (self e) (frame e)
       (calls e ++ session_calls host port (self e) ++ map fetch_call (good ++ [bad]))
       (stdout e ++ ["[EMAIL] IMAP error: " +:+ str_exn err])).
Proof.
  intros Hconf Hport host Hopen Hslice Hgood Hbad.
  rewrite (read_emails_configured_run int W env limit port e Hconf Hport). fold host.
  rewrite (session_prefix_run W host port limit ids e Hopen). cbv zeta.
  rewrite Hslice, for_each_app. unfold bind at 1.
  rewrite (fetch_loop_run W good sums _ Hgood).
  cbn [for_each]. unfold bind at 1. rewrite email_id_body_run, Hbad.
  cbn [fst snd outcome_of self frame calls stdout app].
  rewrite map_app, <- !app_assoc. reflexivity.
Qed.

Lemma read_emails_stops_at_first_failing_message_witness :
  EmailAgent.credentials_missing configured_email_agent = false /\
  EmailAgent.read_emails py_int inbox_with_bad_subject ∅ 10 (fresh configured_email_agent) =
    (Ret [plain_summary "1" "hello"],
     mkSt configured_email_agent tt
       [ImapConnect "imap.gmail.com" 993;
        ImapLogin (Some "tars@example.com") (Some "app-password");
        ImapSelect "inbox"; ImapSearch "ALL";
        ImapFetch "1" "(RFC822)"; ImapFetch "2" "(RFC822)"]
       ["[EMAIL] IMAP error: 'utf-8' codec can't decode byte 0xff in position 0: invalid start byte"]).
Proof.
  split; [reflexivity|].
  eapply eq_trans.
  - apply (read_emails_stops_at_first_failing_message py_int inbox_with_bad_subject ∅ 10 993%Z
             ["1"; "2"; "3"] ["1"] ["3"] "2" [plain_summary "1" "hello"] []
             (Exception "UnicodeDecodeError"
                "'utf-8' codec can't decode byte 0xff in position 0: invalid start byte")
             (fresh configured_email_agent));
      [reflexivity | reflexivity | | reflexivity | reflexivity | reflexivity].
    repeat split. exists "1 2 3", []. split; reflexivity.
  - vm_compute. reflexivity.
Defined.

(** X11. When the fetch loop completes and [mail.close()] raises,
    [mail.logout()] is never called: the last network call is the failed
    [close], the exception is printed, and all the summaries are returned. *)
Theorem read_emails_failed_close_skips_logout (int : string -> pyresult Z)
    (W : MailWorld) (env : gmap string string) (limit port : Z)
    (ids : list string) (sums : list EmailAgent.EmailSummary) (err : exn)
    (e : St EmailAgent.obj unit) :
  EmailAgent.credentials_missing (self e) = false ->
  int (getenv_default env "IMAP_PORT" "993") = Ret port ->
  let host := getenv_default env "IMAP_SERVER" "imap.gmail.com" in
  let recent := py_slice_from (- limit) ids in
  session_opens W host port (self e) ids ->
  ids_summaries W recent = (sums, None) ->
  imap_close W = Raise err ->
  EmailAgent.read_emails int W env limit e =
    (Ret sums,
     mkSt (self e) (frame e)
       (calls e ++ session_calls host port (self e) ++ map fetch_call recent
          ++ [ImapClose])
       (stdout e ++ ["[EMAIL] IMAP error: " +:+ str_exn err])).
Proof.
  intros Hconf Hport host recent Hopen Hloop Hclose.
  rewrite (read_emails_configured_run int W env limit port e Hconf Hport). fold host.
  rewrite (session_prefix_run W host port limit ids e Hopen). cbv zeta. fold recent.
  rewrite (fetch_loop_run W recent sums _ Hloop), Hclose.
  cbn [self frame calls stdout app]. rewrite <- !app_assoc. reflexivity.
Qed.

Lemma read_emails_failed_close_skips_logout_witness :
  EmailAgent.credentials_missing configured_email_agent = false /\
  EmailAgent.read_emails py_int inbox_failing_on_close ∅ 1 (fresh configured_email_agent) =
    (Ret [plain_summary "3" "hello"],
     mkSt configured_email_agent tt
       [ImapConnect "imap.gmail.com" 993;
        ImapLogin (Some "tars@example.com") (Some "app-password");
        ImapSelect "inbox"; ImapSearch "ALL";
        ImapFetch "3" "(RFC822)"; ImapClose]
       ["[EMAIL] IMAP error: socket error: EOF"]).
Proof.
  split; [reflexivity|].
  eapply eq_trans.
  - apply (read_emails_failed_close_skips_logout py_int inbox_failing_on_close ∅ 1 993%Z
             ["1"; "2"; "3"] [plain_summary "3" "hello"]
             (Exception "abort" "socket error: EOF") (fresh configured_email_agent));
      [reflexivity | reflexivity | | reflexivity | reflexivity].
    repeat split. exists "1 2 3", []. split; reflexivity.
  - vm_compute. reflexivity.
Defined.

(** X12. When [int] raises on the value of [IMAP_PORT], the exception does
    not escape from [read_emails]: whether or not the wrapper is
    configured, the call returns the empty list, attempts no connection,
    and prints the text of the exception behind
    [[EMAIL] Error reading emails: ]. *)
Theorem read_emails_malformed_imap_port_is_logged (int : string -> pyresult Z)
    (W : MailWorld) (env : gmap string string) (limit : Z) (err : exn)
    (e : St EmailAgent.obj unit) :
  int (getenv_default env "IMAP_PORT" "993") = Raise err ->
  EmailAgent.read_emails int W env limit e =
    (Ret [],
     mkSt (self e) (frame e) (calls e)
       (stdout e ++ ["[EMAIL] Error reading emails: " +:+ str_exn err])).
Proof.
  intros Hport. unfold EmailAgent.read_emails, try_except.
  unfold bind at 1, lift at 1. rewrite Hport. reflexivity.
Qed.

Lemma read_emails_malformed_imap_port_is_logged_witness :
  py_int (getenv_default env_with_malformed_imap_port "IMAP_PORT" "993") =
    Raise (int_value_error "imaps") /\
  EmailAgent.read_emails py_int three_message_inbox env_with_malformed_imap_port 10
    (fresh configured_email_agent) =
    (Ret [],
     mkSt configured_email_agent tt []
       ["[EMAIL] Error reading emails: invalid literal for int() with base 10: 'imaps'"]).
Proof.
  split; [reflexivity|].
  eapply eq_trans.
  - apply (read_emails_malformed_imap_port_is_logged py_int three_message_inbox
             env_with_malformed_imap_port 10 (int_value_error "imaps")
             (fresh configured_email_agent)).
    reflexivity.
  - vm_compute. reflexivity.
Defined.

(** ** Which part gives the body, and which response parts count *)

Lemma first_text_plain_skips (before : list Message) (part : Message) (after : list Message) :
  Forall (fun p => EmailAgent.get_content_type p <> "text/plain") before ->
  EmailAgent.get_content_type part = "text/plain" ->
  EmailAgent.first_text_plain (before ++ part :: after) = EmailAgent.payload_text part.
Proof.
  intros Hbefore Hpart. induction Hbefore as [|p rest Hp _ IH].
  - cbn [app EmailAgent.first_text_plain]. rewrite Hpart. reflexivity.
  - cbn [app EmailAgent.first_text_plain].
    apply String.eqb_neq in Hp. rewrite Hp. exact IH.
Qed.

(** X13. In a multipart message the body comes from the first part, in
    the depth-first order of [walk], whose content type is [text/plain]:
    the parts before it are passed over, the parts after it (other plain
    texts included) are never read.  If that part decodes to [text], the
    summary carries [text[:500]]; if it does not decode, the message fails
    as a whole. *)
Theorem body_is_first_plain_text_part
    (msg part : Message) (before after : list Message) (subject : string)
    (s : St EmailAgent.obj (list EmailAgent.EmailSummary)) :
  EmailAgent.is_multipart msg = true ->
  EmailAgent.walk msg = before ++ part :: after ->
  Forall (fun p => EmailAgent.get_content_type p <> "text/plain") before ->
  EmailAgent.get_content_type part = "text/plain" ->
  EmailAgent.get_subject msg = Ret subject ->
  EmailAgent.get_body msg = EmailAgent.payload_text part /\
  (forall text, EmailAgent.payload_text part = Ret text ->
     exists x,
       EmailAgent.response_part_body (PartTuple msg) s =
         (Ret tt, mkSt (self s) (frame s ++ [x]) (calls s) (stdout s)) /\
       EmailAgent.sum_body x = String.substring 0 500 text) /\
  (forall err, EmailAgent.payload_text part = Raise err ->
     EmailAgent.response_part_body (PartTuple msg) s = (Raise err, s)).
Proof.
  intros Hmulti Hwalk Hbefore Hpart Hsubject.
  assert (Hbody : EmailAgent.get_body msg = EmailAgent.payload_text part).
  { unfold EmailAgent.get_body. rewrite Hmulti, Hwalk.
    apply first_text_plain_skips; assumption. }
  split; [exact Hbody|]. split.
  - intros text Htext. rewrite Htext in Hbody.
    eexists. split; [apply (response_part_appends msg subject text s Hsubject Hbody)|].
    cbn [EmailAgent.sum_body]. rewrite body_slice_500_take. apply str_take_substring.
  - intros err Herr. rewrite Herr in Hbody.
    rewrite response_part_tuple. unfold summary_of. rewrite Hsubject, Hbody.
    reflexivity.
Qed.

Lemma body_is_first_plain_text_part_witness :
  EmailAgent.is_multipart message_with_attachment = true /\
  EmailAgent.get_body message_with_attachment = Ret "See the attached notes." /\
  exists x,
    EmailAgent.response_part_body (PartTuple message_with_attachment)
      (mkSt configured_email_agent [] [] []) =
      (Ret tt, mkSt configured_email_agent [x] [] []) /\
    EmailAgent.sum_body x = "See the attached notes.".
Proof.
  split; [reflexivity|].
  destruct (body_is_first_plain_text_part message_with_attachment
              (Leaf {| h_subject := missing_subject; h_from := None; h_date := None |}
                    "text/plain" (Ret "See the attached notes."))
              [message_with_attachment;
               Multi {| h_subject := missing_subject; h_from := None; h_date := None |}
                     "multipart/alternative"
                     [Leaf {| h_subject := missing_subject; h_from := None; h_date := None |}
                           "text/plain" (Ret "See the attached notes.");
                      Leaf {| h_subject := missing_subject; h_from := None; h_date := None |}
                           "text/html" (Ret "<p>See the attached notes.</p>")]]
              [Leaf {| h_subject := missing_subject; h_from := None; h_date := None |}
                    "text/html" (Ret "<p>See the attached notes.</p>");
               Leaf {| h_subject := missing_subject; h_from := None; h_date := None |}
                    "text/plain" (Ret "notes.txt: item one, item two")]
              "Minutes" (mkSt configured_email_agent [] [] []))
    as (Hbody & Hsum & _).
  - reflexivity.
  - reflexivity.
  - repeat constructor; discriminate.
  - reflexivity.
  - reflexivity.
  - split; [exact Hbody|].
    destruct (Hsum "See the attached notes." eq_refl) as (x & Hrun & Hx).
    exists x. split; [exact Hrun | exact Hx].
Defined.

(** X14. The elements of [msg_data] that are not tuples (the closing
    bytes, or [None]) count for nothing: walking [msg_data] ends in the
    same state, with the same outcome, as walking its tuples alone. *)
Theorem non_tuple_response_parts_are_ignored
    (msg_data : list ResponsePart)
    (s : St EmailAgent.obj (list EmailAgent.EmailSummary)) :
  for_each msg_data EmailAgent.response_part_body s =
  for_each (List.filter is_tuple msg_data) EmailAgent.response_part_body s.
Proof.
  revert s. induction msg_data as [|[msg|] rest IH]; intros s.
  - reflexivity.
  - cbn [List.filter is_tuple for_each]. unfold bind.
    destruct (EmailAgent.response_part_body (PartTuple msg) s) as [[u|e] s1];
      [apply IH | reflexivity].
  - cbn [List.filter is_tuple for_each]. unfold bind at 1. cbn. apply IH.
Qed.

Lemma read_emails_positive_limit_bound_witness :
  (0 < 2)%Z /\
  fst (EmailAgent.read_emails py_int three_message_inbox ∅ 2 (fresh configured_email_agent)) =
    Ret [plain_summary "2" "hello"; plain_summary "3" "hello"] /\
  (length [plain_summary "2" "hello"; plain_summary "3" "hello"] <= Z.to_nat 2)%nat.
Proof.
  split; [lia|]. split; [reflexivity|].
  apply (read_emails_positive_limit_bound py_int three_message_inbox ∅ 2
           (fresh configured_email_agent)
           [plain_summary "2" "hello"; plain_summary "3" "hello"]).
  - lia.
  - intros email_id parts H. cbn in H. inversion H. cbn. lia.
  - reflexivity.
Defined.

Lemma read_emails_bodies_at_most_500_witness :
  let W := mail_world (Ret [Some "7"]) (fun _ => Ret [PartTuple long_message; PartOther])
             (Ret tt) in
  exists x,
    fst (EmailAgent.read_emails py_int W ∅ 10 (fresh configured_email_agent)) = Ret [x] /\
    Forall (fun x => (String.length (EmailAgent.sum_body x) <= 500)%nat) [x].
Proof.
  cbv zeta. eexists. split; [vm_compute; reflexivity|].
  apply (read_emails_bodies_at_most_500 py_int
           (mail_world (Ret [Some "7"])
              (fun _ => Ret [PartTuple long_message; PartOther]) (Ret tt))
           ∅ 10 (fresh configured_email_agent)).
  vm_compute. reflexivity.
Defined.
